(** * ANT+ speed / cadence device profiles

    A shallow embedding of [src/ant/plus/speed_cadence.py]: the three
    device profiles [BikeSpeed], [BikeCadence] and [SpeedCadence], their
    two-slot counter histories, the page decoding done by [processData]
    and the rate formulas of [calculate_speed], [calculate_distance] and
    [calculate_cadence].

    Python integers are [Z]; Python floats are IEEE-754 binary64 numbers,
    that is Rocq's primitive [float]; a payload is a [list byte]; a [None]
    result is [None] and an exception is the outer [None] of [processData].
    Every [processData] runs under [self.lock] from start to end, so a call
    is a function from the decoder's state to its next state and the
    listener calls it made. *)

From Stdlib Require Import ZArith List Bool Lia Floats.
From Stdlib.Strings Require Import Byte String.
Import ListNotations.
Local Open Scope Z_scope.

Set Warnings "-inexact-float".

(** ** Python primitives used by the module *)

(** The integer value of one payload byte ([data[i]]). *)
Definition byte_val (b : byte) : Z := Z.of_N (Byte.to_N b).

(** [data[i:j]] for constant [0 <= i <= j]: a slice never raises, it is
    clipped to the payload. *)
Definition slice {A : Type} (i j : nat) (data : list A) : list A :=
  firstn (j - i) (skipn i data).

(** [int.from_bytes(bs, byteorder='little')]. *)
Fixpoint int_from_bytes_little (bs : list byte) : Z :=
  match bs with
  | [] => 0
  | b :: rest => byte_val b + 256 * int_from_bytes_little rest
  end.

(** An [int] operand of a float operation is converted to the float of the
    same value; the conversion is exact below [2^53], and every integer
    converted here is a wraparound delta or [60 * delta * 1024], all
    below [2^32]. *)
Definition float_of_int (z : Z) : float := PrimFloat.of_uint63 (Uint63.of_Z z).

(** [a / b] on two [int]s: Python's true division, the correctly rounded
    quotient, which for operands below [2^53] is the binary64 division of
    the two converted operands. *)
Definition int_truediv (a b : Z) : float :=
  (float_of_int a / float_of_int b)%float.

(** ** [collections.deque([a, b], maxlen=2)] *)

(** A bounded deque as Python has it: the items, oldest first. *)
Definition deque_append (maxlen : nat) (items : list Z) (x : Z) : list Z :=
  if (List.length items <? maxlen)%nat then items ++ [x]
  else skipn 1 items ++ [x].

(** Every deque of the module is built from two items with [maxlen=2] and is
    only ever appended to, so it holds exactly two items: slot [0] (the older
    sample) and slot [1] (the newer one). *)
Record deque2 : Type := Deque { slot0 : Z; slot1 : Z }.

Definition deque2_items (d : deque2) : list Z := [slot0 d; slot1 d].

(** [d.append(x)]: the older sample is evicted. *)
Definition append (d : deque2) (x : Z) : deque2 := Deque (slot1 d) x.

(** ** The base class [DeviceProfile] *)

(** Modelled from the spec: [DeviceProfile.wrapDifference] lives in
    [ant/plus/plus.py], which is not part of the sources at hand.  The
    specification gives it as: for modulus M, [wrap_diff(new, old) =
    (new - old) mod M]. *)
Definition wrapDifference (current previous max : Z) : Z :=
  (current - previous) mod max.

(** [self.callbacks]: the dictionary of registered listeners, read with
    [.get(name)] and tested for truth; [true] when a callable is registered
    under the name. *)
Definition listeners : Type := string -> bool.

(** A listener is outside the decoder: calling it is recorded as an event of
    the call's trace, with the arguments it was given. *)
Inductive callback_call : Type :=
| onSpeedData (speed distance : option float)
| onCadenceData (cadence : option float).

(** ** [class BikeSpeed] *)

Module BikeSpeed.

Record t : Type := Build {
  callbacks : listeners;
  _speed : option float;
  _distance : option float;
  _wheel_circumference : float;
  _bike_speed_event_time : deque2;
  _cumulative_speed_revolution : deque2;
  _page_toggle_observed : bool;
  _page_toggle : option Z
}.

Definition __init__ (wheel_circumference : float) (cbs : listeners) : t :=
  {| callbacks := cbs;
     _speed := Some 0%float;
     _distance := Some 0%float;
     _wheel_circumference := wheel_circumference;
     _bike_speed_event_time := Deque 0 0;
     _cumulative_speed_revolution := Deque 0 0;
     _page_toggle_observed := false;
     _page_toggle := None |}.

Definition calculate_speed (self : t) (wheel_circumference : float)
  : option float :=
  if slot0 (_cumulative_speed_revolution self) =? 0 then None
  else if slot0 (_bike_speed_event_time self) =? 0 then None
  else
    let delta_rev_count :=
      wrapDifference (slot1 (_cumulative_speed_revolution self))
                     (slot0 (_cumulative_speed_revolution self)) 65536 in
    let delta_event_time :=
      wrapDifference (slot1 (_bike_speed_event_time self))
                     (slot0 (_bike_speed_event_time self)) 65536 in
    if 0 <? delta_event_time then
      Some (((wheel_circumference * float_of_int delta_rev_count
              * float_of_int 1024) / float_of_int delta_event_time)
            * 3.6)%float
    else None.

Definition calculate_distance (self : t) (wheel_circumference : float)
  : option float :=
  if slot0 (_cumulative_speed_revolution self) =? 0 then None
  else
    let delta_rev_count :=
      wrapDifference (slot1 (_cumulative_speed_revolution self))
                     (slot0 (_cumulative_speed_revolution self)) 65536 in
    Some (wheel_circumference * float_of_int delta_rev_count)%float.

(** Attribute assignments [self.x = v]. *)
Definition set_page_toggle (self : t) (v : option Z) : t :=
  Build (callbacks self) (_speed self) (_distance self)
        (_wheel_circumference self) (_bike_speed_event_time self)
        (_cumulative_speed_revolution self) (_page_toggle_observed self) v.

Definition set_page_toggle_observed (self : t) (v : bool) : t :=
  Build (callbacks self) (_speed self) (_distance self)
        (_wheel_circumference self) (_bike_speed_event_time self)
        (_cumulative_speed_revolution self) v (_page_toggle self).

Definition set_bike_speed_event_time (self : t) (v : deque2) : t :=
  Build (callbacks self) (_speed self) (_distance self)
        (_wheel_circumference self) v
        (_cumulative_speed_revolution self) (_page_toggle_observed self)
        (_page_toggle self).

Definition set_cumulative_speed_revolution (self : t) (v : deque2) : t :=
  Build (callbacks self) (_speed self) (_distance self)
        (_wheel_circumference self) (_bike_speed_event_time self)
        v (_page_toggle_observed self) (_page_toggle self).

Definition set_speed (self : t) (v : option float) : t :=
  Build (callbacks self) v (_distance self)
        (_wheel_circumference self) (_bike_speed_event_time self)
        (_cumulative_speed_revolution self) (_page_toggle_observed self)
        (_page_toggle self).

Definition set_distance (self : t) (v : option float) : t :=
  Build (callbacks self) (_speed self) v
        (_wheel_circumference self) (_bike_speed_event_time self)
        (_cumulative_speed_revolution self) (_page_toggle_observed self)
        (_page_toggle self).

(** [None] is the [IndexError] of [data[0]] on an empty payload, raised
    before anything is written.  The page number [data[0] & 0x7f] is
    computed by the source and never used. *)
Definition processData (self : t) (data : list byte)
  : option (t * list callback_call) :=
  match nth_error data 0 with
  | None => None
  | Some data0 =>
    let page := Z.land (byte_val data0) 127 in
    let page_toggle := Z.shiftr (byte_val data0) 7 in
    let self :=
      if negb (_page_toggle_observed self) then
        match _page_toggle self with
        | None => set_page_toggle self (Some page_toggle)
        | Some seen =>
          if negb (seen =? page_toggle)
          then set_page_toggle_observed self true
          else self
        end
      else self in
    let self :=
      set_bike_speed_event_time self
        (append (_bike_speed_event_time self)
                (int_from_bytes_little (slice 4 6 data))) in
    let self :=
      set_cumulative_speed_revolution self
        (append (_cumulative_speed_revolution self)
                (int_from_bytes_little (slice 6 8 data))) in
    let self :=
      set_speed self (calculate_speed self (_wheel_circumference self)) in
    let self :=
      set_distance self
        (calculate_distance self (_wheel_circumference self)) in
    Some (self,
          if callbacks self "onSpeedData"%string
          then [onSpeedData (_speed self) (_distance self)] else [])
  end.

End BikeSpeed.

(** ** [class BikeCadence] *)

Module BikeCadence.

Record t : Type := Build {
  callbacks : listeners;
  _cadence : option float;
  _bike_cadence_event_time : deque2;
  _cumulative_cadence_revolution : deque2;
  _page_toggle_observed : bool;
  _page_toggle : option Z
}.

Definition __init__ (cbs : listeners) : t :=
  {| callbacks := cbs;
     _cadence := Some 0%float;
     _bike_cadence_event_time := Deque 0 0;
     _cumulative_cadence_revolution := Deque 0 0;
     _page_toggle_observed := false;
     _page_toggle := None |}.

Definition calculate_cadence (self : t) : option float :=
  if slot0 (_cumulative_cadence_revolution self) =? 0 then None
  else if slot0 (_bike_cadence_event_time self) =? 0 then None
  else
    let delta_rev_count :=
      wrapDifference (slot1 (_cumulative_cadence_revolution self))
                     (slot0 (_cumulative_cadence_revolution self)) 65536 in
    let delta_event_time :=
      wrapDifference (slot1 (_bike_cadence_event_time self))
                     (slot0 (_bike_cadence_event_time self)) 65536 in
    if 0 <? delta_event_time then
      Some (int_truediv (60 * delta_rev_count * 1024) delta_event_time)
    else None.

(** Attribute assignments [self.x = v]. *)
Definition set_page_toggle (self : t) (v : option Z) : t :=
  Build (callbacks self) (_cadence self) (_bike_cadence_event_time self)
        (_cumulative_cadence_revolution self) (_page_toggle_observed self) v.

Definition set_page_toggle_observed (self : t) (v : bool) : t :=
  Build (callbacks self) (_cadence self) (_bike_cadence_event_time self)
        (_cumulative_cadence_revolution self) v (_page_toggle self).

Definition set_bike_cadence_event_time (self : t) (v : deque2) : t :=
  Build (callbacks self) (_cadence self) v
        (_cumulative_cadence_revolution self) (_page_toggle_observed self)
        (_page_toggle self).

Definition set_cumulative_cadence_revolution (self : t) (v : deque2) : t :=
  Build (callbacks self) (_cadence self) (_bike_cadence_event_time self)
        v (_page_toggle_observed self) (_page_toggle self).

Definition set_cadence (self : t) (v : option float) : t :=
  Build (callbacks self) v (_bike_cadence_event_time self)
        (_cumulative_cadence_revolution self) (_page_toggle_observed self)
        (_page_toggle self).

(** As in [BikeSpeed.processData]; the counters of a dedicated cadence page
    are read from bytes 4-5 and 6-7 as well. *)
Definition processData (self : t) (data : list byte)
  : option (t * list callback_call) :=
  match nth_error data 0 with
  | None => None
  | Some data0 =>
    let page := Z.land (byte_val data0) 127 in
    let page_toggle := Z.shiftr (byte_val data0) 7 in
    let self :=
      if negb (_page_toggle_observed self) then
        match _page_toggle self with
        | None => set_page_toggle self (Some page_toggle)
        | Some seen =>
          if negb (seen =? page_toggle)
          then set_page_toggle_observed self true
          else self
        end
      else self in
    let self :=
      set_bike_cadence_event_time self
        (append (_bike_cadence_event_time self)
                (int_from_bytes_little (slice 4 6 data))) in
    let self :=
      set_cumulative_cadence_revolution self
        (append (_cumulative_cadence_revolution self)
                (int_from_bytes_little (slice 6 8 data))) in
    let self := set_cadence self (calculate_cadence self) in
    Some (self,
          if callbacks self "onCadenceData"%string
          then [onCadenceData (_cadence self)] else [])
  end.

End BikeCadence.

(** ** [class SpeedCadence] *)

Module SpeedCadence.

Record t : Type := Build {
  callbacks : listeners;
  _speed : option float;
  _cadence : option float;
  _distance : option float;
  _wheel_circumference : float;
  _bike_cadence_event_time : deque2;
  _cumulative_cadence_revolution : deque2;
  _bike_speed_event_time : deque2;
  _cumulative_speed_revolution : deque2
}.

Definition __init__ (wheel_circumference : float) (cbs : listeners) : t :=
  {| callbacks := cbs;
     _speed := Some 0%float;
     _cadence := Some 0%float;
     _distance := Some 0%float;
     _wheel_circumference := wheel_circumference;
     _bike_cadence_event_time := Deque 0 0;
     _cumulative_cadence_revolution := Deque 0 0;
     _bike_speed_event_time := Deque 0 0;
     _cumulative_speed_revolution := Deque 0 0 |}.

Definition calculate_speed (self : t) (wheel_circumference : float)
  : option float :=
  if slot0 (_cumulative_speed_revolution self) =? 0 then None
  else if slot0 (_bike_speed_event_time self) =? 0 then None
  else
    let delta_rev_count :=
      wrapDifference (slot1 (_cumulative_speed_revolution self))
                     (slot0 (_cumulative_speed_revolution self)) 65536 in
    let delta_event_time :=
      wrapDifference (slot1 (_bike_speed_event_time self))
                     (slot0 (_bike_speed_event_time self)) 65536 in
    if 0 <? delta_event_time then
      Some (((wheel_circumference * float_of_int delta_rev_count
              * float_of_int 1024) / float_of_int delta_event_time)
            * 3.6)%float
    else None.

Definition calculate_distance (self : t) (wheel_circumference : float)
  : option float :=
  if slot0 (_cumulative_speed_revolution self) =? 0 then None
  else
    let delta_rev_count :=
      wrapDifference (slot1 (_cumulative_speed_revolution self))
                     (slot0 (_cumulative_speed_revolution self)) 65536 in
    Some (wheel_circumference * float_of_int delta_rev_count)%float.

Definition calculate_cadence (self : t) : option float :=
  if slot0 (_cumulative_cadence_revolution self) =? 0 then None
  else if slot0 (_bike_cadence_event_time self) =? 0 then None
  else
    let delta_rev_count :=
      wrapDifference (slot1 (_cumulative_cadence_revolution self))
                     (slot0 (_cumulative_cadence_revolution self)) 65536 in
    let delta_event_time :=
      wrapDifference (slot1 (_bike_cadence_event_time self))
                     (slot0 (_bike_cadence_event_time self)) 65536 in
    if 0 <? delta_event_time then
      Some (int_truediv (60 * delta_rev_count * 1024) delta_event_time)
    else None.

(** Attribute assignments [self.x = v]. *)
Definition set_bike_cadence_event_time (self : t) (v : deque2) : t :=
  Build (callbacks self) (_speed self) (_cadence self) (_distance self)
        (_wheel_circumference self) v (_cumulative_cadence_revolution self)
        (_bike_speed_event_time self) (_cumulative_speed_revolution self).

Definition set_cumulative_cadence_revolution (self : t) (v : deque2) : t :=
  Build (callbacks self) (_speed self) (_cadence self) (_distance self)
        (_wheel_circumference self) (_bike_cadence_event_time self) v
        (_bike_speed_event_time self) (_cumulative_speed_revolution self).

Definition set_bike_speed_event_time (self : t) (v : deque2) : t :=
  Build (callbacks self) (_speed self) (_cadence self) (_distance self)
        (_wheel_circumference self) (_bike_cadence_event_time self)
        (_cumulative_cadence_revolution self) v
        (_cumulative_speed_revolution self).

Definition set_cumulative_speed_revolution (self : t) (v : deque2) : t :=
  Build (callbacks self) (_speed self) (_cadence self) (_distance self)
        (_wheel_circumference self) (_bike_cadence_event_time self)
        (_cumulative_cadence_revolution self) (_bike_speed_event_time self)
        v.

Definition set_speed (self : t) (v : option float) : t :=
  Build (callbacks self) v (_cadence self) (_distance self)
        (_wheel_circumference self) (_bike_cadence_event_time self)
        (_cumulative_cadence_revolution self) (_bike_speed_event_time self)
        (_cumulative_speed_revolution self).

Definition set_distance (self : t) (v : option float) : t :=
  Build (callbacks self) (_speed self) (_cadence self) v
        (_wheel_circumference self) (_bike_cadence_event_time self)
        (_cumulative_cadence_revolution self) (_bike_speed_event_time self)
        (_cumulative_speed_revolution self).

Definition set_cadence (self : t) (v : option float) : t :=
  Build (callbacks self) (_speed self) v (_distance self)
        (_wheel_circumference self) (_bike_cadence_event_time self)
        (_cumulative_cadence_revolution self) (_bike_speed_event_time self)
        (_cumulative_speed_revolution self).

(** [page = data[0]] is read before the lock is taken; [None] is its
    [IndexError] on an empty payload.  A page whose low nibble exceeds 5
    falls through the [if] and the call returns with nothing done. *)
Definition processData (self : t) (data : list byte)
  : option (t * list callback_call) :=
  match nth_error data 0 with
  | None => None
  | Some data0 =>
    let page := byte_val data0 in
    if Z.land page 15 <=? 5 then
      let self :=
        set_bike_cadence_event_time self
          (append (_bike_cadence_event_time self)
                  (int_from_bytes_little (slice 0 2 data))) in
      let self :=
        set_cumulative_cadence_revolution self
          (append (_cumulative_cadence_revolution self)
                  (int_from_bytes_little (slice 2 4 data))) in
      let self :=
        set_bike_speed_event_time self
          (append (_bike_speed_event_time self)
                  (int_from_bytes_little (slice 4 6 data))) in
      let self :=
        set_cumulative_speed_revolution self
          (append (_cumulative_speed_revolution self)
                  (int_from_bytes_little (slice 6 8 data))) in
      let self :=
        set_speed self (calculate_speed self (_wheel_circumference self)) in
      let self :=
        set_distance self
          (calculate_distance self (_wheel_circumference self)) in
      let self := set_cadence self (calculate_cadence self) in
      Some (self,
            (if callbacks self "onSpeedData"%string
             then [onSpeedData (_speed self) (_distance self)] else [])
            ++
            (if callbacks self "onCadenceData"%string
             then [onCadenceData (_cadence self)] else []))
    else Some (self, [])
  end.

End SpeedCadence.

(** ** Feeding a decoder *)

(** The pages of a channel are handed to [processData] one after the other;
    the state after the last one, or [None] as soon as a call raises. *)
Fixpoint feed {S : Type} (process : S -> list byte -> option (S * list callback_call))
  (self : S) (pages : list (list byte)) : option S :=
  match pages with
  | [] => Some self
  | data :: rest =>
    match process self data with
    | None => None
    | Some (self', _) => feed process self' rest
    end
  end.

(** The toggle bit of a payload, [data[0] >> 7]. *)
Definition toggle_bit (data : list byte) : Z :=
  match data with
  | [] => 0
  | data0 :: _ => Z.shiftr (byte_val data0) 7
  end.

(** An 8-byte page with the given first byte and the counters of a dedicated
    sensor in bytes 4-7, little-endian. *)
Definition page_of (b0 t_lo t_hi r_lo r_hi : byte) : list byte :=
  [b0; x00; x00; x00; t_lo; t_hi; r_lo; r_hi].

(** A listener called with no measurement. *)
Definition absent_call (c : callback_call) : Prop :=
  match c with
  | onSpeedData speed distance => speed = None /\ distance = None
  | onCadenceData cadence => cadence = None
  end.

(** A listener called with no rate (speed or cadence); the distance of a
    speed call is not looked at. *)
Definition absent_rate (c : callback_call) : Prop :=
  match c with
  | onSpeedData speed _ => speed = None
  | onCadenceData cadence => cadence = None
  end.

(** A history whose two samples are 16-bit unsigned. *)
Definition u16_history (d : deque2) : Prop :=
  0 <= slot0 d < 65536 /\ 0 <= slot1 d < 65536.

(** The test of [SpeedCadence.processData] on a payload, [(data[0] & 0x0F)
    <= 5]; an empty payload has no byte 0. *)
Definition accepted (data : list byte) : bool :=
  match data with
  | [] => false
  | data0 :: _ => Z.land (byte_val data0) 15 <=? 5
  end.

(** The stored measurement of a decoder is current when it is the one its
    histories give. *)
Definition BikeSpeed_current (s : BikeSpeed.t) : Prop :=
  BikeSpeed._speed s
  = BikeSpeed.calculate_speed s (BikeSpeed._wheel_circumference s)
  /\ BikeSpeed._distance s
     = BikeSpeed.calculate_distance s (BikeSpeed._wheel_circumference s).

Definition BikeCadence_current (s : BikeCadence.t) : Prop :=
  BikeCadence._cadence s = BikeCadence.calculate_cadence s.

Definition SpeedCadence_current (s : SpeedCadence.t) : Prop :=
  SpeedCadence._speed s
  = SpeedCadence.calculate_speed s (SpeedCadence._wheel_circumference s)
  /\ SpeedCadence._distance s
     = SpeedCadence.calculate_distance s (SpeedCadence._wheel_circumference s)
  /\ SpeedCadence._cadence s = SpeedCadence.calculate_cadence s.

(** The wraparound delta between the two samples a history holds. *)
Definition delta (d : deque2) : Z := wrapDifference (slot1 d) (slot0 d) 65536.

(** * Properties *)

(** ** The two-slot history is the bounded deque *)

Lemma append_is_deque_append (d : deque2) (x : Z) :
  deque2_items (append d x) = deque_append 2 (deque2_items d) x.
Proof. destruct d as [a b]. reflexivity. Qed.

Lemma append_slot0 (d : deque2) (x : Z) : slot0 (append d x) = slot1 d.
Proof. reflexivity. Qed.

Lemma append_slot1 (d : deque2) (x : Z) : slot1 (append d x) = x.
Proof. reflexivity. Qed.

(** ** The counters read from a page are 16-bit *)

Lemma byte_val_range (b : byte) : 0 <= byte_val b < 256.
Proof.
  unfold byte_val. pose proof (Byte.to_N_bounded b) as H. lia.
Qed.

Lemma two_bytes_u16 (bs : list byte) :
  0 <= int_from_bytes_little (firstn 2 bs) < 65536.
Proof.
  destruct bs as [|lo [|hi rest]]; cbn [firstn int_from_bytes_little].
  - lia.
  - pose proof (byte_val_range lo). lia.
  - pose proof (byte_val_range lo). pose proof (byte_val_range hi). lia.
Qed.

(** Each of the four fields [data[0:2]], [data[2:4]], [data[4:6]] and
    [data[6:8]] decodes to a 16-bit unsigned integer, whatever the length of
    the payload. *)
Lemma field_u16 (i : nat) (data : list byte) :
  0 <= int_from_bytes_little (slice i (i + 2) data) < 65536.
Proof.
  unfold slice. replace (i + 2 - i)%nat with 2%nat by lia.
  apply two_bytes_u16.
Qed.

(** ** Wraparound deltas *)

Lemma wrapDifference_range (current previous : Z) :
  0 <= wrapDifference current previous 65536 < 65536.
Proof. unfold wrapDifference. apply Z.mod_pos_bound. lia. Qed.

Lemma wrapDifference_same (x : Z) : wrapDifference x x 65536 = 0.
Proof. unfold wrapDifference. rewrite Z.sub_diag. reflexivity. Qed.

Lemma delta_range (d : deque2) : 0 <= delta d < 65536.
Proof. apply wrapDifference_range. Qed.

Lemma delta_append_twice (d : deque2) (x : Z) : delta (append (append d x) x) = 0.
Proof. unfold delta. cbn. apply wrapDifference_same. Qed.

(** C1: for all 16-bit unsigned [old] and [new], the wraparound delta
    [wrapDifference new old 65536] equals [(new - old + 65536) mod 65536]
    and lies in [0, 65536); in particular the delta from 65530 to 5 is 11. *)
Theorem wrapDifference_u16 (new old : Z) :
  0 <= new < 65536 -> 0 <= old < 65536 ->
  wrapDifference new old 65536 = (new - old + 65536) mod 65536
  /\ 0 <= wrapDifference new old 65536 < 65536
  /\ wrapDifference 5 65530 65536 = 11.
Proof.
  intros Hnew Hold. split; [|split].
  - unfold wrapDifference.
    replace (new - old + 65536) with (new - old + 1 * 65536) by lia.
    now rewrite Z.mod_add by lia.
  - apply wrapDifference_range.
  - reflexivity.
Qed.

Lemma wrapDifference_u16_witness :
  wrapDifference 65535 0 65536 = (65535 - 0 + 65536) mod 65536
  /\ 0 <= wrapDifference 65535 0 65536 < 65536
  /\ wrapDifference 5 65530 65536 = 11.
Proof. apply (wrapDifference_u16 65535 0); lia. Defined.

(** ** The rate formulas *)

Lemma float_of_int_1024 : float_of_int 1024 = 1024%float.
Proof. reflexivity. Qed.

(** The guards of the three [calculate_*] methods are integer tests; this
    settles one of them either way. *)
Ltac zero_or_not x :=
  let E := fresh "E" in
  destruct (Z.eqb_spec x 0) as [E|E]; [try rewrite E in * | ]; try lia.

Ltac pos_or_not x :=
  let E := fresh "E" in
  destruct (Z.ltb_spec 0 x) as [E|E]; try lia.

Lemma BikeSpeed_speed_cases (self : BikeSpeed.t) (wc : float) :
  let rev := BikeSpeed._cumulative_speed_revolution self in
  let time := BikeSpeed._bike_speed_event_time self in
  BikeSpeed.calculate_speed self wc =
  if (slot0 rev =? 0) || (slot0 time =? 0) || negb (0 <? delta time) then None
  else Some (wc * float_of_int (delta rev) * 1024
             / float_of_int (delta time) * 3.6)%float.
Proof.
  cbv zeta. unfold BikeSpeed.calculate_speed, delta.
  destruct (slot0 (BikeSpeed._cumulative_speed_revolution self) =? 0); [reflexivity|].
  destruct (slot0 (BikeSpeed._bike_speed_event_time self) =? 0); [reflexivity|].
  cbn [orb]. rewrite float_of_int_1024.
  destruct (0 <? _); reflexivity.
Qed.

Lemma SpeedCadence_speed_cases (self : SpeedCadence.t) (wc : float) :
  let rev := SpeedCadence._cumulative_speed_revolution self in
  let time := SpeedCadence._bike_speed_event_time self in
  SpeedCadence.calculate_speed self wc =
  if (slot0 rev =? 0) || (slot0 time =? 0) || negb (0 <? delta time) then None
  else Some (wc * float_of_int (delta rev) * 1024
             / float_of_int (delta time) * 3.6)%float.
Proof.
  cbv zeta. unfold SpeedCadence.calculate_speed, delta.
  destruct (slot0 (SpeedCadence._cumulative_speed_revolution self) =? 0); [reflexivity|].
  destruct (slot0 (SpeedCadence._bike_speed_event_time self) =? 0); [reflexivity|].
  cbn [orb]. rewrite float_of_int_1024.
  destruct (0 <? _); reflexivity.
Qed.

Lemma BikeCadence_cadence_cases (self : BikeCadence.t) :
  let rev := BikeCadence._cumulative_cadence_revolution self in
  let time := BikeCadence._bike_cadence_event_time self in
  BikeCadence.calculate_cadence self =
  if (slot0 rev =? 0) || (slot0 time =? 0) || negb (0 <? delta time) then None
  else Some (int_truediv (60 * delta rev * 1024) (delta time)).
Proof.
  cbv zeta. unfold BikeCadence.calculate_cadence, delta.
  destruct (slot0 (BikeCadence._cumulative_cadence_revolution self) =? 0); [reflexivity|].
  destruct (slot0 (BikeCadence._bike_cadence_event_time self) =? 0); [reflexivity|].
  cbn [orb]. destruct (0 <? _); reflexivity.
Qed.

Lemma SpeedCadence_cadence_cases (self : SpeedCadence.t) :
  let rev := SpeedCadence._cumulative_cadence_revolution self in
  let time := SpeedCadence._bike_cadence_event_time self in
  SpeedCadence.calculate_cadence self =
  if (slot0 rev =? 0) || (slot0 time =? 0) || negb (0 <? delta time) then None
  else Some (int_truediv (60 * delta rev * 1024) (delta time)).
Proof.
  cbv zeta. unfold SpeedCadence.calculate_cadence, delta.
  destruct (slot0 (SpeedCadence._cumulative_cadence_revolution self) =? 0); [reflexivity|].
  destruct (slot0 (SpeedCadence._bike_cadence_event_time self) =? 0); [reflexivity|].
  cbn [orb]. destruct (0 <? _); reflexivity.
Qed.

Lemma BikeSpeed_distance_cases (self : BikeSpeed.t) (wc : float) :
  let rev := BikeSpeed._cumulative_speed_revolution self in
  BikeSpeed.calculate_distance self wc =
  if slot0 rev =? 0 then None else Some (wc * float_of_int (delta rev))%float.
Proof. reflexivity. Qed.

Lemma SpeedCadence_distance_cases (self : SpeedCadence.t) (wc : float) :
  let rev := SpeedCadence._cumulative_speed_revolution self in
  SpeedCadence.calculate_distance self wc =
  if slot0 rev =? 0 then None else Some (wc * float_of_int (delta rev))%float.
Proof. reflexivity. Qed.

(** What the guards of a rate leave: both older slots nonzero and a positive
    time delta give the value, anything else gives [None]. *)
Lemma rate_guard_some {A : Type} (r0 t0 dt : Z) (v : A) :
  r0 <> 0 -> t0 <> 0 -> 0 < dt ->
  (if (r0 =? 0) || (t0 =? 0) || negb (0 <? dt) then None else Some v) = Some v.
Proof. intros. zero_or_not r0. zero_or_not t0. pos_or_not dt. reflexivity. Qed.

Lemma rate_guard_none {A : Type} (r0 t0 dt : Z) (v : A) :
  dt <= 0 \/ r0 = 0 \/ t0 = 0 ->
  (if (r0 =? 0) || (t0 =? 0) || negb (0 <? dt) then None else Some v) = None.
Proof.
  intros H. zero_or_not r0; [reflexivity|]. zero_or_not t0; [reflexivity|].
  pos_or_not dt. reflexivity.
Qed.

(** C2: in every state of a speed-capable decoder ([BikeSpeed] and
    [SpeedCadence]) whose older revolution count and older event time are
    both nonzero and whose wraparound time delta is strictly positive,
    [calculate_speed] returns
    [wheel_circumference * delta_revolutions * 1024 / delta_time * 3.6];
    it returns [None] whenever the time delta is not positive or an older
    slot is still 0. *)
Theorem calculate_speed_formula
  (wc : float) (bs : BikeSpeed.t) (sc : SpeedCadence.t) :
  (let rev := BikeSpeed._cumulative_speed_revolution bs in
   let time := BikeSpeed._bike_speed_event_time bs in
   (slot0 rev <> 0 -> slot0 time <> 0 -> 0 < delta time ->
    BikeSpeed.calculate_speed bs wc
    = Some (wc * float_of_int (delta rev) * 1024
            / float_of_int (delta time) * 3.6)%float)
   /\ (delta time <= 0 \/ slot0 rev = 0 \/ slot0 time = 0 ->
       BikeSpeed.calculate_speed bs wc = None))
  /\
  (let rev := SpeedCadence._cumulative_speed_revolution sc in
   let time := SpeedCadence._bike_speed_event_time sc in
   (slot0 rev <> 0 -> slot0 time <> 0 -> 0 < delta time ->
    SpeedCadence.calculate_speed sc wc
    = Some (wc * float_of_int (delta rev) * 1024
            / float_of_int (delta time) * 3.6)%float)
   /\ (delta time <= 0 \/ slot0 rev = 0 \/ slot0 time = 0 ->
       SpeedCadence.calculate_speed sc wc = None)).
Proof.
  cbv zeta. rewrite BikeSpeed_speed_cases, SpeedCadence_speed_cases. cbv zeta.
  repeat split; intros;
    first [ now apply rate_guard_some | now apply rate_guard_none ].
Qed.

Lemma calculate_speed_formula_witness :
  let bs := BikeSpeed.Build (fun _ => true) None None 2.105%float
              (Deque 1024 2048) (Deque 1 2) false None in
  let sc := SpeedCadence.Build (fun _ => true) None None None 2.105%float
              (Deque 3 4) (Deque 5 6) (Deque 65000 488) (Deque 65535 1) in
  (0 < delta (BikeSpeed._bike_speed_event_time bs)
   /\ BikeSpeed.calculate_speed bs 2.105 = Some 7.578%float)
  /\ (0 < delta (SpeedCadence._bike_speed_event_time sc)
      /\ SpeedCadence.calculate_speed sc 2.105
         = Some (2.105 * 2 * 1024 / 1024 * 3.6)%float)
  /\ BikeSpeed.calculate_speed
       (BikeSpeed.Build (fun _ => true) None None 2.105%float
          (Deque 7 7) (Deque 1 2) false None) 2.105 = None.
Proof.
  cbv zeta.
  match goal with
  | |- (_ /\ BikeSpeed.calculate_speed ?bs _ = _)
       /\ (_ /\ SpeedCadence.calculate_speed ?sc _ = _) /\ _ =>
    destruct (calculate_speed_formula 2.105 bs sc) as [[Hb _] [Hs _]]
  end.
  cbv zeta in Hb, Hs.
  split; [|split].
  - split; [reflexivity|].
    rewrite Hb; [vm_compute; reflexivity | cbn; lia | cbn; lia | reflexivity].
  - split; [reflexivity|].
    rewrite Hs; [vm_compute; reflexivity | cbn; lia | cbn; lia | reflexivity].
  - match goal with
    | |- BikeSpeed.calculate_speed ?bs _ = _ =>
      destruct (calculate_speed_formula 2.105 bs
                  (SpeedCadence.__init__ 2.105 (fun _ => true))) as [[_ Hn] _]
    end.
    apply Hn. left. vm_compute. discriminate.
Defined.

(** C3: in every state of a cadence-capable decoder ([BikeCadence] and
    [SpeedCadence]) whose older cadence revolution count and older cadence
    event time are both nonzero and whose wraparound time delta is strictly
    positive, [calculate_cadence] returns
    [60 * delta_revolutions * 1024 / delta_time], and [None] otherwise; a
    time delta of 512 ticks with a revolution delta of 1 gives 120 RPM. *)
Theorem calculate_cadence_formula (bc : BikeCadence.t) (sc : SpeedCadence.t) :
  (let rev := BikeCadence._cumulative_cadence_revolution bc in
   let time := BikeCadence._bike_cadence_event_time bc in
   (slot0 rev <> 0 -> slot0 time <> 0 -> 0 < delta time ->
    BikeCadence.calculate_cadence bc
    = Some (float_of_int (60 * delta rev * 1024) / float_of_int (delta time))%float)
   /\ (~ (slot0 rev <> 0 /\ slot0 time <> 0 /\ 0 < delta time) ->
       BikeCadence.calculate_cadence bc = None)
   /\ (slot0 rev <> 0 -> slot0 time <> 0 -> delta time = 512 -> delta rev = 1 ->
       BikeCadence.calculate_cadence bc = Some 120%float))
  /\
  (let rev := SpeedCadence._cumulative_cadence_revolution sc in
   let time := SpeedCadence._bike_cadence_event_time sc in
   (slot0 rev <> 0 -> slot0 time <> 0 -> 0 < delta time ->
    SpeedCadence.calculate_cadence sc
    = Some (float_of_int (60 * delta rev * 1024) / float_of_int (delta time))%float)
   /\ (~ (slot0 rev <> 0 /\ slot0 time <> 0 /\ 0 < delta time) ->
       SpeedCadence.calculate_cadence sc = None)
   /\ (slot0 rev <> 0 -> slot0 time <> 0 -> delta time = 512 -> delta rev = 1 ->
       SpeedCadence.calculate_cadence sc = Some 120%float)).
Proof.
  cbv zeta.
  rewrite BikeCadence_cadence_cases, SpeedCadence_cadence_cases. cbv zeta.
  repeat split; intros;
    try (now apply rate_guard_some);
    try (apply rate_guard_none; lia);
    match goal with
    | Ht : delta _ = 512, Hr : delta _ = 1 |- _ =>
      rewrite Ht, Hr; rewrite rate_guard_some by lia; reflexivity
    end.
Qed.

Lemma calculate_cadence_formula_witness :
  let bc := BikeCadence.Build (fun _ => true) None
              (Deque 65280 256) (Deque 9 10) false None in
  let sc := SpeedCadence.Build (fun _ => true) None None None 2.105%float
              (Deque 1024 1536) (Deque 41 42) (Deque 0 0) (Deque 0 0) in
  (delta (BikeCadence._bike_cadence_event_time bc) = 512
   /\ delta (BikeCadence._cumulative_cadence_revolution bc) = 1
   /\ BikeCadence.calculate_cadence bc = Some 120%float)
  /\ (delta (SpeedCadence._bike_cadence_event_time sc) = 512
      /\ delta (SpeedCadence._cumulative_cadence_revolution sc) = 1
      /\ SpeedCadence.calculate_cadence sc = Some 120%float).
Proof.
  cbv zeta.
  match goal with
  | |- (_ /\ _ /\ BikeCadence.calculate_cadence ?bc = _)
       /\ (_ /\ _ /\ SpeedCadence.calculate_cadence ?sc = _) =>
    destruct (calculate_cadence_formula bc sc) as [(_ & _ & Hb) (_ & _ & Hs)]
  end.
  cbv zeta in Hb, Hs.
  split; (split; [reflexivity|split; [reflexivity|]]).
  - apply Hb; [cbn; lia | cbn; lia | reflexivity | reflexivity].
  - apply Hs; [cbn; lia | cbn; lia | reflexivity | reflexivity].
Defined.

(** ** What one call of [processData] does *)

(** A dedicated speed page: both histories take the new sample, speed and
    distance are recomputed from them, the listener (when there is one) gets
    both, and the toggle bit is tracked until the flag is set. *)
Lemma BikeSpeed_processData_step (self : BikeSpeed.t) (b : byte) (rest : list byte) :
  let data := b :: rest in
  exists self',
    BikeSpeed.processData self data
    = Some (self',
            if BikeSpeed.callbacks self "onSpeedData"%string
            then [onSpeedData (BikeSpeed._speed self') (BikeSpeed._distance self')]
            else [])
    /\ BikeSpeed.callbacks self' = BikeSpeed.callbacks self
    /\ BikeSpeed._wheel_circumference self' = BikeSpeed._wheel_circumference self
    /\ BikeSpeed._bike_speed_event_time self'
       = append (BikeSpeed._bike_speed_event_time self)
                (int_from_bytes_little (slice 4 6 data))
    /\ BikeSpeed._cumulative_speed_revolution self'
       = append (BikeSpeed._cumulative_speed_revolution self)
                (int_from_bytes_little (slice 6 8 data))
    /\ BikeSpeed._speed self'
       = BikeSpeed.calculate_speed self' (BikeSpeed._wheel_circumference self)
    /\ BikeSpeed._distance self'
       = BikeSpeed.calculate_distance self' (BikeSpeed._wheel_circumference self)
    /\ BikeSpeed._page_toggle_observed self'
       = (BikeSpeed._page_toggle_observed self
          || match BikeSpeed._page_toggle self with
             | None => false
             | Some seen => negb (seen =? toggle_bit data)
             end)
    /\ BikeSpeed._page_toggle self'
       = (if BikeSpeed._page_toggle_observed self then BikeSpeed._page_toggle self
          else match BikeSpeed._page_toggle self with
               | None => Some (toggle_bit data)
               | Some seen => Some seen
               end).
Proof.
  cbv zeta. destruct self as [cbs sp di wc time rev obs pt].
  unfold BikeSpeed.processData. cbn [nth_error toggle_bit].
  cbn [BikeSpeed._page_toggle_observed BikeSpeed._page_toggle
       BikeSpeed.callbacks BikeSpeed._wheel_circumference
       BikeSpeed._bike_speed_event_time BikeSpeed._cumulative_speed_revolution].
  destruct obs; [|destruct pt as [seen|];
                  [destruct (seen =? Z.shiftr (byte_val b) 7)|]];
    cbn [negb orb]; eexists; (split; [reflexivity|]);
    repeat split.
Qed.

(** A dedicated cadence page, likewise. *)
Lemma BikeCadence_processData_step (self : BikeCadence.t) (b : byte) (rest : list byte) :
  let data := b :: rest in
  exists self',
    BikeCadence.processData self data
    = Some (self',
            if BikeCadence.callbacks self "onCadenceData"%string
            then [onCadenceData (BikeCadence._cadence self')]
            else [])
    /\ BikeCadence.callbacks self' = BikeCadence.callbacks self
    /\ BikeCadence._bike_cadence_event_time self'
       = append (BikeCadence._bike_cadence_event_time self)
                (int_from_bytes_little (slice 4 6 data))
    /\ BikeCadence._cumulative_cadence_revolution self'
       = append (BikeCadence._cumulative_cadence_revolution self)
                (int_from_bytes_little (slice 6 8 data))
    /\ BikeCadence._cadence self' = BikeCadence.calculate_cadence self'
    /\ BikeCadence._page_toggle_observed self'
       = (BikeCadence._page_toggle_observed self
          || match BikeCadence._page_toggle self with
             | None => false
             | Some seen => negb (seen =? toggle_bit data)
             end)
    /\ BikeCadence._page_toggle self'
       = (if BikeCadence._page_toggle_observed self
          then BikeCadence._page_toggle self
          else match BikeCadence._page_toggle self with
               | None => Some (toggle_bit data)
               | Some seen => Some seen
               end).
Proof.
  cbv zeta. destruct self as [cbs ca time rev obs pt].
  unfold BikeCadence.processData. cbn [nth_error toggle_bit].
  cbn [BikeCadence._page_toggle_observed BikeCadence._page_toggle
       BikeCadence.callbacks BikeCadence._bike_cadence_event_time
       BikeCadence._cumulative_cadence_revolution].
  destruct obs; [|destruct pt as [seen|];
                  [destruct (seen =? Z.shiftr (byte_val b) 7)|]];
    cbn [negb orb]; eexists; (split; [reflexivity|]);
    repeat split.
Qed.

(** The listeners a combined decoder calls for an accepted page: speed and
    distance first, cadence second, each only when registered. *)
Lemma SpeedCadence_processData_accepted
  (self : SpeedCadence.t) (b : byte) (rest : list byte) :
  let data := b :: rest in
  Z.land (byte_val b) 15 <= 5 ->
  exists self',
    SpeedCadence.processData self data
    = Some (self',
            (if SpeedCadence.callbacks self "onSpeedData"%string
             then [onSpeedData (SpeedCadence._speed self')
                               (SpeedCadence._distance self')]
             else [])
            ++
            (if SpeedCadence.callbacks self "onCadenceData"%string
             then [onCadenceData (SpeedCadence._cadence self')]
             else []))
    /\ SpeedCadence.callbacks self' = SpeedCadence.callbacks self
    /\ SpeedCadence._wheel_circumference self'
       = SpeedCadence._wheel_circumference self
    /\ SpeedCadence._bike_cadence_event_time self'
       = append (SpeedCadence._bike_cadence_event_time self)
                (int_from_bytes_little (slice 0 2 data))
    /\ SpeedCadence._cumulative_cadence_revolution self'
       = append (SpeedCadence._cumulative_cadence_revolution self)
                (int_from_bytes_little (slice 2 4 data))
    /\ SpeedCadence._bike_speed_event_time self'
       = append (SpeedCadence._bike_speed_event_time self)
                (int_from_bytes_little (slice 4 6 data))
    /\ SpeedCadence._cumulative_speed_revolution self'
       = append (SpeedCadence._cumulative_speed_revolution self)
                (int_from_bytes_little (slice 6 8 data))
    /\ SpeedCadence._speed self'
       = SpeedCadence.calculate_speed self'
           (SpeedCadence._wheel_circumference self)
    /\ SpeedCadence._distance self'
       = SpeedCadence.calculate_distance self'
           (SpeedCadence._wheel_circumference self)
    /\ SpeedCadence._cadence self' = SpeedCadence.calculate_cadence self'.
Proof.
  cbv zeta. intros Hn. destruct self as [cbs sp ca di wc ct cr st sr].
  unfold SpeedCadence.processData. cbn [nth_error].
  destruct (Z.leb_spec (Z.land (byte_val b) 15) 5) as [_|]; [|lia].
  eexists; (split; [reflexivity|]); repeat split.
Qed.

Lemma SpeedCadence_processData_ignored
  (self : SpeedCadence.t) (b : byte) (rest : list byte) :
  5 < Z.land (byte_val b) 15 ->
  SpeedCadence.processData self (b :: rest) = Some (self, []).
Proof.
  intros Hn. unfold SpeedCadence.processData. cbn [nth_error].
  destruct (Z.leb_spec (Z.land (byte_val b) 15) 5); [lia|reflexivity].
Qed.

(** ** The sentinel guards *)

(** C4, as the code has it: in every decoder state whose older slot holds
    revolution count 0, speed, cadence and distance are all [None]; when the
    older slot holds event time 0, speed and cadence are [None].  Only the
    older slot is tested, and the distance reads no event time. *)
Theorem older_sentinel_gives_no_measurement
  (wc : float) (bs : BikeSpeed.t) (bc : BikeCadence.t) (sc : SpeedCadence.t) :
  (slot0 (BikeSpeed._cumulative_speed_revolution bs) = 0 ->
   BikeSpeed.calculate_speed bs wc = None
   /\ BikeSpeed.calculate_distance bs wc = None)
  /\ (slot0 (BikeSpeed._bike_speed_event_time bs) = 0 ->
      BikeSpeed.calculate_speed bs wc = None)
  /\ (slot0 (BikeCadence._cumulative_cadence_revolution bc) = 0
      \/ slot0 (BikeCadence._bike_cadence_event_time bc) = 0 ->
      BikeCadence.calculate_cadence bc = None)
  /\ (slot0 (SpeedCadence._cumulative_speed_revolution sc) = 0 ->
      SpeedCadence.calculate_speed sc wc = None
      /\ SpeedCadence.calculate_distance sc wc = None)
  /\ (slot0 (SpeedCadence._bike_speed_event_time sc) = 0 ->
      SpeedCadence.calculate_speed sc wc = None)
  /\ (slot0 (SpeedCadence._cumulative_cadence_revolution sc) = 0
      \/ slot0 (SpeedCadence._bike_cadence_event_time sc) = 0 ->
      SpeedCadence.calculate_cadence sc = None).
Proof.
  rewrite BikeSpeed_speed_cases, SpeedCadence_speed_cases,
    BikeCadence_cadence_cases, SpeedCadence_cadence_cases,
    BikeSpeed_distance_cases, SpeedCadence_distance_cases.
  cbv zeta.
  repeat match goal with |- _ /\ _ => split end; intros H;
    try (apply rate_guard_none; tauto);
    rewrite H; split; reflexivity.
Qed.

Lemma older_sentinel_gives_no_measurement_witness :
  let bs := BikeSpeed.Build (fun _ => true) None None 2.105%float
              (Deque 0 1024) (Deque 0 1) false (Some 0) in
  slot0 (BikeSpeed._cumulative_speed_revolution bs) = 0
  /\ BikeSpeed.calculate_speed bs 2.105 = None
  /\ BikeSpeed.calculate_distance bs 2.105 = None.
Proof.
  cbv zeta. split; [reflexivity|].
  match goal with
  | |- BikeSpeed.calculate_speed ?bs _ = _ /\ _ =>
    apply (proj1 (older_sentinel_gives_no_measurement 2.105 bs
                    (BikeCadence.__init__ (fun _ => true))
                    (SpeedCadence.__init__ 2.105 (fun _ => true))))
  end.
  reflexivity.
Defined.

(** C4 as stated fails on the newer slot and on the distance.  A counter that
    wraps from 65535 to 0 puts a 0 in the newer slot and both speed and
    distance are still measured; a state whose older event time is 0 still
    has a distance. *)
Lemma zero_slot_still_measured :
  feed BikeSpeed.processData (BikeSpeed.__init__ 2.105 (fun _ => true))
    [page_of x00 x00 x04 xff xff; page_of x00 x00 x08 x00 x00]
  = Some (BikeSpeed.Build (fun _ => true)
            (Some 7.578%float) (Some 2.105%float) 2.105%float
            (Deque 1024 2048) (Deque 65535 0) false (Some 0))
  /\
  feed BikeSpeed.processData (BikeSpeed.__init__ 2.105 (fun _ => true))
    [page_of x00 x00 x00 x01 x00; page_of x00 x00 x04 x02 x00]
  = Some (BikeSpeed.Build (fun _ => true)
            None (Some 2.105%float) 2.105%float
            (Deque 0 1024) (Deque 1 2) false (Some 0)).
Proof. split; vm_compute; reflexivity. Qed.

(** ** The known-value scenario *)

(** After a step, speed and distance are those of the new histories. *)
Ltac speed_of_histories d Hs Hd Ht Hr :=
  rewrite BikeSpeed_speed_cases in Hs; rewrite BikeSpeed_distance_cases in Hd;
  cbv zeta in Hs, Hd; rewrite Ht, Hr in Hs; rewrite Hr in Hd;
  let sp := fresh "sp" in
  let di := fresh "di" in
  let Esp := fresh "Esp" in
  let Edi := fresh "Edi" in
  remember (BikeSpeed._speed d) as sp eqn:Esp;
  remember (BikeSpeed._distance d) as di eqn:Edi;
  vm_compute in Hs, Hd; subst sp di.

(** C5, as the code has it: with wheel circumference 2.105 m and a fresh
    speed decoder, the page carrying (event time 0, revolutions 0) yields no
    measurement, and so does the next page carrying (1024, 1), whose older
    slot is the 0 of the first; a third page carrying (2048, 2) yields
    distance 2.105 m and speed 2.105 * 1 * 1024 / 1024 * 3.6 = 7.578 km/h. *)
Theorem known_value_scenario (cbs : listeners) (b1 b2 b3 : byte) :
  let call speed distance :=
    if cbs "onSpeedData"%string then [onSpeedData speed distance] else [] in
  exists d1 d2 d3,
    BikeSpeed.processData (BikeSpeed.__init__ 2.105 cbs)
      (page_of b1 x00 x00 x00 x00) = Some (d1, call None None)
    /\ BikeSpeed.processData d1 (page_of b2 x00 x04 x01 x00)
       = Some (d2, call None None)
    /\ BikeSpeed.processData d2 (page_of b3 x00 x08 x02 x00)
       = Some (d3, call (Some 7.578%float) (Some 2.105%float))
    /\ (BikeSpeed._speed d1 = None /\ BikeSpeed._distance d1 = None)
    /\ (BikeSpeed._speed d2 = None /\ BikeSpeed._distance d2 = None)
    /\ (BikeSpeed._speed d3 = Some (2.105 * 1 * 1024 / 1024 * 3.6)%float
        /\ BikeSpeed._distance d3 = Some 2.105%float).
Proof.
  cbv zeta.
  destruct (BikeSpeed_processData_step (BikeSpeed.__init__ 2.105 cbs)
              b1 [x00; x00; x00; x00; x00; x00; x00])
    as (d1 & E1 & Hc1 & Hw1 & Ht1 & Hr1 & Hs1 & Hd1 & _).
  destruct (BikeSpeed_processData_step d1 b2 [x00; x00; x00; x00; x04; x01; x00])
    as (d2 & E2 & Hc2 & Hw2 & Ht2 & Hr2 & Hs2 & Hd2 & _).
  destruct (BikeSpeed_processData_step d2 b3 [x00; x00; x00; x00; x08; x02; x00])
    as (d3 & E3 & Hc3 & Hw3 & Ht3 & Hr3 & Hs3 & Hd3 & _).
  rewrite Hc2, Hc1 in E3. rewrite Hc1 in E2.
  rewrite Hw2, Hw1 in Hs3, Hd3. rewrite Hw1 in Hs2, Hd2.
  rewrite Ht2, Ht1 in Ht3. rewrite Hr2, Hr1 in Hr3.
  rewrite Ht1 in Ht2. rewrite Hr1 in Hr2.
  speed_of_histories d1 Hs1 Hd1 Ht1 Hr1.
  speed_of_histories d2 Hs2 Hd2 Ht2 Hr2.
  speed_of_histories d3 Hs3 Hd3 Ht3 Hr3.
  exists d1, d2, d3. unfold page_of.
  rewrite E1, E2, E3, Hs1, Hd1, Hs2, Hd2, Hs3, Hd3.
  cbn [BikeSpeed.callbacks BikeSpeed.__init__].
  repeat split.
Qed.

(** C5 as stated fails at its second page: the revolution count 0 of the
    first page sits in the older slot and both guards return [None], so no
    2.105 m and no 7.578 km/h are reported there. *)
Lemma known_value_second_page_absent :
  let d0 := BikeSpeed.__init__ 2.105 (fun _ => true) in
  let d1 := BikeSpeed.Build (fun _ => true) None None 2.105%float
              (Deque 0 0) (Deque 0 0) false (Some 0) in
  let d2 := BikeSpeed.Build (fun _ => true) None None 2.105%float
              (Deque 0 1024) (Deque 0 1) false (Some 0) in
  BikeSpeed.processData d0 (page_of x00 x00 x00 x00 x00)
  = Some (d1, [onSpeedData None None])
  /\ BikeSpeed.processData d1 (page_of x00 x00 x04 x01 x00)
     = Some (d2, [onSpeedData None None])
  /\ BikeSpeed._distance d2 <> Some 2.105%float
  /\ BikeSpeed._speed d2 <> Some 7.578%float.
Proof. cbv zeta. repeat split; try discriminate; vm_compute; reflexivity. Qed.

(** ** The first page of a fresh decoder *)

Lemma BikeSpeed_fresh_rev (s : BikeSpeed.t) (wc : float) (x : Z) (d : deque2) :
  slot1 d = 0 ->
  BikeSpeed._cumulative_speed_revolution s = append d x ->
  BikeSpeed.calculate_speed s wc = None
  /\ BikeSpeed.calculate_distance s wc = None.
Proof.
  intros H0 Hr.
  unfold BikeSpeed.calculate_speed, BikeSpeed.calculate_distance.
  rewrite Hr, append_slot0, H0. split; reflexivity.
Qed.

Lemma BikeCadence_fresh_rev (s : BikeCadence.t) (x : Z) (d : deque2) :
  slot1 d = 0 ->
  BikeCadence._cumulative_cadence_revolution s = append d x ->
  BikeCadence.calculate_cadence s = None.
Proof.
  intros H0 Hr. unfold BikeCadence.calculate_cadence.
  rewrite Hr, append_slot0, H0. reflexivity.
Qed.

Lemma SpeedCadence_fresh_rev (s : SpeedCadence.t) (wc : float) (x y : Z)
  (d e : deque2) :
  slot1 d = 0 -> slot1 e = 0 ->
  SpeedCadence._cumulative_speed_revolution s = append d x ->
  SpeedCadence._cumulative_cadence_revolution s = append e y ->
  SpeedCadence.calculate_speed s wc = None
  /\ SpeedCadence.calculate_distance s wc = None
  /\ SpeedCadence.calculate_cadence s = None.
Proof.
  intros Hd He Hs Hc.
  unfold SpeedCadence.calculate_speed, SpeedCadence.calculate_distance,
    SpeedCadence.calculate_cadence.
  rewrite Hs, Hc, !append_slot0, Hd, He. repeat split.
Qed.

(** C6: the very first call of [processData] on a freshly constructed decoder
    yields [None] for speed, cadence and distance, in the decoder and in
    every listener call it makes: the older slot of each history still holds
    the 0 it was built with.  (A combined decoder that ignores the page calls
    no listener at all.) *)
Theorem first_call_absent (wc : float) (cbs : listeners) (b : byte) (rest : list byte) :
  (exists s',
     BikeSpeed.processData (BikeSpeed.__init__ wc cbs) (b :: rest)
     = Some (s', if cbs "onSpeedData"%string
                 then [onSpeedData None None] else [])
     /\ BikeSpeed._speed s' = None /\ BikeSpeed._distance s' = None)
  /\
  (exists s',
     BikeCadence.processData (BikeCadence.__init__ cbs) (b :: rest)
     = Some (s', if cbs "onCadenceData"%string
                 then [onCadenceData None] else [])
     /\ BikeCadence._cadence s' = None)
  /\
  (exists s' calls,
     SpeedCadence.processData (SpeedCadence.__init__ wc cbs) (b :: rest)
     = Some (s', calls)
     /\ Forall absent_call calls
     /\ (Z.land (byte_val b) 15 <= 5 ->
         calls = (if cbs "onSpeedData"%string
                  then [onSpeedData None None] else [])
                 ++ (if cbs "onCadenceData"%string
                     then [onCadenceData None] else [])
         /\ SpeedCadence._speed s' = None
         /\ SpeedCadence._distance s' = None
         /\ SpeedCadence._cadence s' = None)).
Proof.
  split; [|split].
  - destruct (BikeSpeed_processData_step (BikeSpeed.__init__ wc cbs) b rest)
      as (s' & E & _ & _ & _ & Hr & Hs & Hd & _).
    destruct (BikeSpeed_fresh_rev s' wc _ (Deque 0 0) eq_refl Hr) as [Hs0 Hd0].
    cbn [BikeSpeed.__init__ BikeSpeed._wheel_circumference
         BikeSpeed.callbacks] in E, Hs, Hd.
    rewrite Hs0 in Hs. rewrite Hd0 in Hd.
    exists s'. rewrite E, Hs, Hd. repeat split.
  - destruct (BikeCadence_processData_step (BikeCadence.__init__ cbs) b rest)
      as (s' & E & _ & _ & Hr & Hc & _).
    rewrite (BikeCadence_fresh_rev s' _ (Deque 0 0) eq_refl Hr) in Hc.
    cbn [BikeCadence.__init__ BikeCadence.callbacks] in E.
    exists s'. rewrite E, Hc. repeat split.
  - destruct (Z_le_gt_dec (Z.land (byte_val b) 15) 5) as [Hn|Hn].
    + destruct (SpeedCadence_processData_accepted
                  (SpeedCadence.__init__ wc cbs) b rest Hn)
        as (s' & E & _ & _ & _ & Hcr & _ & Hsr & Hs & Hd & Hc).
      destruct (SpeedCadence_fresh_rev s' wc _ _ (Deque 0 0) (Deque 0 0)
                  eq_refl eq_refl Hsr Hcr)
        as (Hs0 & Hd0 & Hc0).
      cbn [SpeedCadence.__init__ SpeedCadence._wheel_circumference
           SpeedCadence.callbacks] in E, Hs, Hd.
      rewrite Hs0 in Hs. rewrite Hd0 in Hd. rewrite Hc0 in Hc.
      rewrite Hs, Hd, Hc in E.
      eexists s', _. split; [exact E|]. split.
      * destruct (cbs "onSpeedData"%string), (cbs "onCadenceData"%string);
          repeat constructor.
      * intros _. repeat split; assumption.
    + exists (SpeedCadence.__init__ wc cbs), [].
      split; [apply SpeedCadence_processData_ignored; lia|].
      split; [constructor|]. intros Hle. lia.
Qed.

Lemma first_call_absent_witness :
  exists s',
    SpeedCadence.processData (SpeedCadence.__init__ 2.105 (fun _ => true))
      [x05; x00; x01; x00; x00; x04; x01; x00]
    = Some (s', [onSpeedData None None; onCadenceData None]).
Proof.
  destruct (first_call_absent 2.105 (fun _ => true) x05
              [x00; x01; x00; x00; x04; x01; x00])
    as (_ & _ & s' & calls & E & _ & H).
  destruct H as (Hc & _); [vm_compute; discriminate|].
  exists s'. rewrite E, Hc. reflexivity.
Defined.

(** ** Duplicate pages *)

Lemma BikeSpeed_zero_delta (s : BikeSpeed.t) (wc : float) :
  delta (BikeSpeed._bike_speed_event_time s) = 0 ->
  BikeSpeed.calculate_speed s wc = None.
Proof.
  intros H. rewrite BikeSpeed_speed_cases. cbv zeta.
  apply rate_guard_none. lia.
Qed.

Lemma BikeCadence_zero_delta (s : BikeCadence.t) :
  delta (BikeCadence._bike_cadence_event_time s) = 0 ->
  BikeCadence.calculate_cadence s = None.
Proof.
  intros H. rewrite BikeCadence_cadence_cases. cbv zeta.
  apply rate_guard_none. lia.
Qed.

Lemma SpeedCadence_zero_delta (s : SpeedCadence.t) (wc : float) :
  (delta (SpeedCadence._bike_speed_event_time s) = 0 ->
   SpeedCadence.calculate_speed s wc = None)
  /\ (delta (SpeedCadence._bike_cadence_event_time s) = 0 ->
      SpeedCadence.calculate_cadence s = None).
Proof.
  rewrite SpeedCadence_speed_cases, SpeedCadence_cadence_cases. cbv zeta.
  split; intros H; apply rate_guard_none; lia.
Qed.

(** C7, as the code has it: for every dedicated decoder and every page, and
    for the combined decoder and every page it accepts (low nibble of byte 0
    at most 5), processing the page twice in a row leaves a wraparound
    event-time delta of 0 after the second call, and the second call's speed
    and cadence are [None]; for any page, every listener call of the second
    call carries no speed and no cadence. *)
Theorem duplicate_page_absent
  (bs : BikeSpeed.t) (bc : BikeCadence.t) (sc : SpeedCadence.t)
  (b : byte) (rest : list byte) :
  let data := b :: rest in
  (exists s1 c1 s2 c2,
     BikeSpeed.processData bs data = Some (s1, c1)
     /\ BikeSpeed.processData s1 data = Some (s2, c2)
     /\ delta (BikeSpeed._bike_speed_event_time s2) = 0
     /\ BikeSpeed._speed s2 = None
     /\ Forall absent_rate c2)
  /\
  (exists s1 c1 s2 c2,
     BikeCadence.processData bc data = Some (s1, c1)
     /\ BikeCadence.processData s1 data = Some (s2, c2)
     /\ delta (BikeCadence._bike_cadence_event_time s2) = 0
     /\ BikeCadence._cadence s2 = None
     /\ Forall absent_rate c2)
  /\
  (exists s1 c1 s2 c2,
     SpeedCadence.processData sc data = Some (s1, c1)
     /\ SpeedCadence.processData s1 data = Some (s2, c2)
     /\ Forall absent_rate c2
     /\ (Z.land (byte_val b) 15 <= 5 ->
         delta (SpeedCadence._bike_speed_event_time s2) = 0
         /\ delta (SpeedCadence._bike_cadence_event_time s2) = 0
         /\ SpeedCadence._speed s2 = None
         /\ SpeedCadence._cadence s2 = None)).
Proof.
  cbv zeta. split; [|split].
  - destruct (BikeSpeed_processData_step bs b rest)
      as (s1 & E1 & _ & _ & Ht1 & _).
    destruct (BikeSpeed_processData_step s1 b rest)
      as (s2 & E2 & _ & _ & Ht2 & _ & Hs & _).
    cbv zeta in Ht1, Ht2. rewrite Ht1 in Ht2.
    assert (Hdt : delta (BikeSpeed._bike_speed_event_time s2) = 0)
      by (rewrite Ht2; apply delta_append_twice).
    rewrite (BikeSpeed_zero_delta s2 _ Hdt) in Hs.
    eexists s1, _, s2, _. split; [exact E1|]. split; [exact E2|].
    split; [exact Hdt|]. split; [exact Hs|].
    destruct (BikeSpeed.callbacks s1 _); repeat constructor. exact Hs.
  - destruct (BikeCadence_processData_step bc b rest)
      as (s1 & E1 & _ & Ht1 & _).
    destruct (BikeCadence_processData_step s1 b rest)
      as (s2 & E2 & _ & Ht2 & _ & Hc & _).
    cbv zeta in Ht1, Ht2. rewrite Ht1 in Ht2.
    assert (Hdt : delta (BikeCadence._bike_cadence_event_time s2) = 0)
      by (rewrite Ht2; apply delta_append_twice).
    rewrite (BikeCadence_zero_delta s2 Hdt) in Hc.
    eexists s1, _, s2, _. split; [exact E1|]. split; [exact E2|].
    split; [exact Hdt|]. split; [exact Hc|].
    destruct (BikeCadence.callbacks s1 _); repeat constructor. exact Hc.
  - destruct (Z_le_gt_dec (Z.land (byte_val b) 15) 5) as [Hn|Hn].
    + destruct (SpeedCadence_processData_accepted sc b rest Hn)
        as (s1 & E1 & _ & _ & Hct1 & _ & Hst1 & _).
      destruct (SpeedCadence_processData_accepted s1 b rest Hn)
        as (s2 & E2 & _ & _ & Hct2 & _ & Hst2 & _ & Hs & _ & Hc).
      rewrite Hct1 in Hct2. rewrite Hst1 in Hst2.
      assert (Hds : delta (SpeedCadence._bike_speed_event_time s2) = 0)
        by (rewrite Hst2; apply delta_append_twice).
      assert (Hdc : delta (SpeedCadence._bike_cadence_event_time s2) = 0)
        by (rewrite Hct2; apply delta_append_twice).
      rewrite (proj1 (SpeedCadence_zero_delta s2 _) Hds) in Hs.
      rewrite (proj2 (SpeedCadence_zero_delta s2 2.105) Hdc) in Hc.
      eexists s1, _, s2, _. split; [exact E1|]. split; [exact E2|]. split.
      * destruct (SpeedCadence.callbacks s1 "onSpeedData"%string),
          (SpeedCadence.callbacks s1 "onCadenceData"%string);
          repeat constructor; assumption.
      * intros _. repeat split; assumption.
    + exists sc, [], sc, [].
      rewrite SpeedCadence_processData_ignored by lia.
      repeat split; [constructor | lia | lia | lia | lia].
Qed.

Lemma duplicate_page_absent_witness :
  exists s1 c1 s2 c2,
    SpeedCadence.processData
      (SpeedCadence.Build (fun _ => true) None None None 2.105%float
         (Deque 3 4) (Deque 5 6) (Deque 7 8) (Deque 9 10))
      [x05; x00; x01; x00; x00; x04; x01; x00] = Some (s1, c1)
    /\ SpeedCadence.processData s1 [x05; x00; x01; x00; x00; x04; x01; x00]
       = Some (s2, c2)
    /\ delta (SpeedCadence._bike_speed_event_time s2) = 0
    /\ SpeedCadence._speed s2 = None
    /\ SpeedCadence._cadence s2 = None.
Proof.
  destruct (duplicate_page_absent
              (BikeSpeed.__init__ 2.105 (fun _ => true))
              (BikeCadence.__init__ (fun _ => true))
              (SpeedCadence.Build (fun _ => true) None None None 2.105%float
                 (Deque 3 4) (Deque 5 6) (Deque 7 8) (Deque 9 10))
              x05 [x00; x01; x00; x00; x04; x01; x00])
    as (_ & _ & s1 & c1 & s2 & c2 & E1 & E2 & _ & H).
  destruct H as (Hd & _ & Hs & Hc); [vm_compute; discriminate|].
  exists s1, c1, s2, c2. repeat split; assumption.
Defined.

(** C7 as stated fails for the combined decoder on a page it ignores.  Two
    accepted pages leave an event-time delta of 1024 and 512, speed 7.578
    and cadence 120; a page of nibble 6 processed twice after them changes
    nothing: the delta is not 0 and speed and cadence are not [None]. *)
Lemma ignored_duplicate_keeps_measurement :
  let s := SpeedCadence.Build (fun _ => true)
             (Some 7.578%float) (Some 120%float) (Some 2.105%float)
             2.105%float
             (Deque 1024 1536) (Deque 41 42) (Deque 1024 2048) (Deque 1 2) in
  let P := [x06; x06; x2b; x00; x00; x0c; x03; x00] in
  feed SpeedCadence.processData (SpeedCadence.__init__ 2.105 (fun _ => true))
       [[x00; x04; x29; x00; x00; x04; x01; x00];
        [x00; x06; x2a; x00; x00; x08; x02; x00]] = Some s
  /\ SpeedCadence.processData s P = Some (s, [])
  /\ feed SpeedCadence.processData s [P; P] = Some s
  /\ delta (SpeedCadence._bike_speed_event_time s) = 1024
  /\ delta (SpeedCadence._bike_cadence_event_time s) = 512
  /\ SpeedCadence._speed s <> None
  /\ SpeedCadence._cadence s <> None.
Proof.
  cbv zeta. repeat split; try discriminate; vm_compute; reflexivity.
Qed.

(** ** The nibble filter of the combined decoder *)

(** C8: a combined decoder given a page whose byte 0 has a low nibble above 5
    returns with its state untouched (the four counter histories among it)
    and calls no listener; a page of nibble at most 5 is accepted: the
    cadence event time and revolutions are read from bytes [0:2) and [2:4),
    the speed event time and revolutions from bytes [4:6) and [6:8), each
    appended to its history. *)
Theorem combined_nibble_filter
  (sc : SpeedCadence.t) (b : byte) (rest : list byte) :
  let data := b :: rest in
  (5 < Z.land (byte_val b) 15 ->
   SpeedCadence.processData sc data = Some (sc, []))
  /\
  (Z.land (byte_val b) 15 <= 5 ->
   exists s' calls,
     SpeedCadence.processData sc data = Some (s', calls)
     /\ SpeedCadence._bike_cadence_event_time s'
        = append (SpeedCadence._bike_cadence_event_time sc)
                 (int_from_bytes_little (slice 0 2 data))
     /\ SpeedCadence._cumulative_cadence_revolution s'
        = append (SpeedCadence._cumulative_cadence_revolution sc)
                 (int_from_bytes_little (slice 2 4 data))
     /\ SpeedCadence._bike_speed_event_time s'
        = append (SpeedCadence._bike_speed_event_time sc)
                 (int_from_bytes_little (slice 4 6 data))
     /\ SpeedCadence._cumulative_speed_revolution s'
        = append (SpeedCadence._cumulative_speed_revolution sc)
                 (int_from_bytes_little (slice 6 8 data))).
Proof.
  cbv zeta. split; intros Hn.
  - now apply SpeedCadence_processData_ignored.
  - destruct (SpeedCadence_processData_accepted sc b rest Hn)
      as (s' & E & _ & _ & Hct & Hcr & Hst & Hsr & _).
    eexists s', _. split; [exact E|]. repeat split; assumption.
Qed.

Lemma combined_nibble_filter_witness :
  let sc := SpeedCadence.Build (fun _ => true)
              (Some 7.578%float) (Some 120%float) (Some 2.105%float)
              2.105%float
              (Deque 1024 1536) (Deque 41 42) (Deque 1024 2048) (Deque 1 2) in
  SpeedCadence.processData sc [x06; x11; x22; x33; x44; x55; x66; x77]
  = Some (sc, [])
  /\ exists s' calls,
       SpeedCadence.processData sc [x05; x11; x22; x33; x44; x55; x66; x77]
       = Some (s', calls)
       /\ SpeedCadence._bike_cadence_event_time s' = Deque 1536 4357
       /\ SpeedCadence._cumulative_cadence_revolution s' = Deque 42 13090
       /\ SpeedCadence._bike_speed_event_time s' = Deque 2048 21828
       /\ SpeedCadence._cumulative_speed_revolution s' = Deque 2 30566.
Proof.
  cbv zeta. split.
  - apply (combined_nibble_filter _ x06 [x11; x22; x33; x44; x55; x66; x77]).
    vm_compute. reflexivity.
  - match goal with
    | |- exists s' calls, SpeedCadence.processData ?sc _ = _ /\ _ =>
      destruct (proj2 (combined_nibble_filter sc x05
                         [x11; x22; x33; x44; x55; x66; x77]))
        as (s' & calls & E & Hct & Hcr & Hst & Hsr)
    end; [vm_compute; discriminate|].
    exists s', calls. repeat split; assumption.
Defined.

(** ** The toggle latch of the dedicated decoders *)

Section ToggleLatch.

Context {S : Type}
        (process : S -> list byte -> option (S * list callback_call))
        (observed : S -> bool)
        (first_toggle : S -> option Z).

(** What both dedicated decoders do with the toggle bit of a page. *)
Hypothesis step : forall (s : S) (b : byte) (rest : list byte),
  exists s' calls,
    process s (b :: rest) = Some (s', calls)
    /\ observed s'
       = (observed s
          || match first_toggle s with
             | None => false
             | Some seen => negb (seen =? toggle_bit (b :: rest))
             end)
    /\ first_toggle s'
       = (if observed s then first_toggle s
          else match first_toggle s with
               | None => Some (toggle_bit (b :: rest))
               | Some seen => Some seen
               end).

Lemma feed_latched (pages : list (list byte)) : forall s : S,
  Forall (fun p => p <> []) pages ->
  observed s = true ->
  exists s', feed process s pages = Some s' /\ observed s' = true.
Proof.
  induction pages as [|p ps IH]; intros s Hne Hobs.
  - exists s. split; [reflexivity|assumption].
  - inversion Hne as [|? ? Hp Hps]; subst.
    destruct p as [|b rest]; [congruence|].
    destruct (step s b rest) as (s1 & calls & E & Ho & _).
    rewrite Hobs in Ho. cbn [orb] in Ho.
    destruct (IH s1 Hps Ho) as (s' & Ef & Ho').
    exists s'. cbn [feed]. rewrite E. split; assumption.
Qed.

Lemma feed_tracking (pages : list (list byte)) : forall (s : S) (t0 : Z),
  Forall (fun p => p <> []) pages ->
  observed s = false ->
  first_toggle s = Some t0 ->
  exists s',
    feed process s pages = Some s'
    /\ observed s' = existsb (fun p => negb (t0 =? toggle_bit p)) pages.
Proof.
  induction pages as [|p ps IH]; intros s t0 Hne Hobs Hft.
  - exists s. split; [reflexivity|assumption].
  - inversion Hne as [|? ? Hp Hps]; subst.
    destruct p as [|b rest]; [congruence|].
    destruct (step s b rest) as (s1 & calls & E & Ho & Hf).
    rewrite Hobs, Hft in Ho, Hf. cbn [orb] in Ho.
    cbn [feed existsb]. rewrite E.
    destruct (negb (t0 =? toggle_bit (b :: rest))) eqn:Hdiff.
    + destruct (feed_latched ps s1 Hps Ho) as (s' & Ef & Ho').
      exists s'. split; assumption.
    + destruct (IH s1 t0 Hps Ho Hf) as (s' & Ef & Ho').
      exists s'. split; assumption.
Qed.

Lemma feed_fresh (p0 : list byte) (ps : list (list byte)) (s : S) :
  Forall (fun p => p <> []) (p0 :: ps) ->
  observed s = false ->
  first_toggle s = None ->
  exists s',
    feed process s (p0 :: ps) = Some s'
    /\ observed s'
       = existsb (fun p => negb (toggle_bit p0 =? toggle_bit p)) ps.
Proof.
  intros Hne Hobs Hft.
  inversion Hne as [|? ? Hp Hps]; subst.
  destruct p0 as [|b rest]; [congruence|].
  destruct (step s b rest) as (s1 & calls & E & Ho & Hf).
  rewrite Hobs, Hft in Ho, Hf. cbn [orb] in Ho.
  cbn [feed]. rewrite E.
  exact (feed_tracking ps s1 _ Hps Ho Hf).
Qed.

End ToggleLatch.

Lemma BikeSpeed_toggle_step (s : BikeSpeed.t) (b : byte) (rest : list byte) :
  exists s' calls,
    BikeSpeed.processData s (b :: rest) = Some (s', calls)
    /\ BikeSpeed._page_toggle_observed s'
       = (BikeSpeed._page_toggle_observed s
          || match BikeSpeed._page_toggle s with
             | None => false
             | Some seen => negb (seen =? toggle_bit (b :: rest))
             end)
    /\ BikeSpeed._page_toggle s'
       = (if BikeSpeed._page_toggle_observed s then BikeSpeed._page_toggle s
          else match BikeSpeed._page_toggle s with
               | None => Some (toggle_bit (b :: rest))
               | Some seen => Some seen
               end).
Proof.
  destruct (BikeSpeed_processData_step s b rest)
    as (s' & E & _ & _ & _ & _ & _ & _ & Ho & Hf).
  eexists s', _. split; [exact E|]. split; assumption.
Qed.

Lemma BikeCadence_toggle_step (s : BikeCadence.t) (b : byte) (rest : list byte) :
  exists s' calls,
    BikeCadence.processData s (b :: rest) = Some (s', calls)
    /\ BikeCadence._page_toggle_observed s'
       = (BikeCadence._page_toggle_observed s
          || match BikeCadence._page_toggle s with
             | None => false
             | Some seen => negb (seen =? toggle_bit (b :: rest))
             end)
    /\ BikeCadence._page_toggle s'
       = (if BikeCadence._page_toggle_observed s
          then BikeCadence._page_toggle s
          else match BikeCadence._page_toggle s with
               | None => Some (toggle_bit (b :: rest))
               | Some seen => Some seen
               end).
Proof.
  destruct (BikeCadence_processData_step s b rest)
    as (s' & E & _ & _ & _ & _ & Ho & Hf).
  eexists s', _. split; [exact E|]. split; assumption.
Qed.

(** C9: in a dedicated decoder ([BikeSpeed] or [BikeCadence]) the flag
    [_page_toggle_observed] starts false; after any pages it is true exactly
    when one of them carried a toggle bit (byte 0, bit 7) different from the
    first page's, so it becomes true on the first such page; once true it is
    true after every later page.  With toggle bits 0, 0, 1, 1 it is set by
    the third page and a following 0 leaves it set. *)
Theorem toggle_latch (wc : float) (cbs : listeners) :
  (BikeSpeed._page_toggle_observed (BikeSpeed.__init__ wc cbs) = false
   /\ BikeCadence._page_toggle_observed (BikeCadence.__init__ cbs) = false)
  /\
  (forall (p0 : list byte) (ps : list (list byte)),
     Forall (fun p => p <> []) (p0 :: ps) ->
     (exists s,
        feed BikeSpeed.processData (BikeSpeed.__init__ wc cbs) (p0 :: ps)
        = Some s
        /\ BikeSpeed._page_toggle_observed s
           = existsb (fun p => negb (toggle_bit p0 =? toggle_bit p)) ps)
     /\
     (exists s,
        feed BikeCadence.processData (BikeCadence.__init__ cbs) (p0 :: ps)
        = Some s
        /\ BikeCadence._page_toggle_observed s
           = existsb (fun p => negb (toggle_bit p0 =? toggle_bit p)) ps))
  /\
  (forall (bs : BikeSpeed.t) (bc : BikeCadence.t) (pages : list (list byte)),
     Forall (fun p => p <> []) pages ->
     (BikeSpeed._page_toggle_observed bs = true ->
      exists s, feed BikeSpeed.processData bs pages = Some s
                /\ BikeSpeed._page_toggle_observed s = true)
     /\
     (BikeCadence._page_toggle_observed bc = true ->
      exists s, feed BikeCadence.processData bc pages = Some s
                /\ BikeCadence._page_toggle_observed s = true))
  /\
  (let p (b0 : byte) := page_of b0 x00 x00 x00 x00 in
   let pages := [p x00; p x00; p x80; p x80; p x00] in
   map toggle_bit pages = [0; 0; 1; 1; 0]
   /\ map (fun n =>
             option_map BikeSpeed._page_toggle_observed
               (feed BikeSpeed.processData (BikeSpeed.__init__ wc cbs)
                     (firstn n pages)))
          [1; 2; 3; 4; 5]%nat
      = [Some false; Some false; Some true; Some true; Some true]
   /\ map (fun n =>
             option_map BikeCadence._page_toggle_observed
               (feed BikeCadence.processData (BikeCadence.__init__ cbs)
                     (firstn n pages)))
          [1; 2; 3; 4; 5]%nat
      = [Some false; Some false; Some true; Some true; Some true]).
Proof.
  split; [split; reflexivity|]. split; [|split].
  - intros p0 ps Hne. split.
    + apply (feed_fresh BikeSpeed.processData BikeSpeed._page_toggle_observed
               BikeSpeed._page_toggle BikeSpeed_toggle_step);
        [assumption|reflexivity|reflexivity].
    + apply (feed_fresh BikeCadence.processData
               BikeCadence._page_toggle_observed
               BikeCadence._page_toggle BikeCadence_toggle_step);
        [assumption|reflexivity|reflexivity].
  - intros bs bc pages Hne. split; intros Hobs.
    + exact (feed_latched BikeSpeed.processData BikeSpeed._page_toggle_observed
               BikeSpeed._page_toggle BikeSpeed_toggle_step pages bs Hne Hobs).
    + exact (feed_latched BikeCadence.processData
               BikeCadence._page_toggle_observed
               BikeCadence._page_toggle BikeCadence_toggle_step
               pages bc Hne Hobs).
  - cbv zeta. repeat split.
Qed.

Lemma toggle_latch_witness :
  let p (b0 : byte) := page_of b0 x00 x04 x01 x00 in
  (exists s,
     feed BikeSpeed.processData (BikeSpeed.__init__ 2.105 (fun _ => true))
          [p x00; p x00; p x80] = Some s
     /\ BikeSpeed._page_toggle_observed s = true)
  /\
  (exists s,
     feed BikeCadence.processData
          (BikeCadence.Build (fun _ => true) None (Deque 0 0) (Deque 0 0)
             true (Some 0))
          [p x00; p x00] = Some s
     /\ BikeCadence._page_toggle_observed s = true).
Proof.
  cbv zeta.
  destruct (toggle_latch 2.105 (fun _ => true)) as (_ & Hset & Hkeep & _).
  split.
  - destruct (proj1 (Hset (page_of x00 x00 x04 x01 x00)
                       [page_of x00 x00 x04 x01 x00;
                        page_of x80 x00 x04 x01 x00]
                       ltac:(repeat constructor; discriminate)))
      as (s & E & Ho).
    exists s. split; [exact E|]. rewrite Ho. reflexivity.
  - apply (proj2 (Hkeep (BikeSpeed.__init__ 2.105 (fun _ => true))
                   (BikeCadence.Build (fun _ => true) None (Deque 0 0)
                      (Deque 0 0) true (Some 0))
                   [page_of x00 x00 x04 x01 x00; page_of x00 x00 x04 x01 x00]
                   ltac:(repeat constructor; discriminate))).
    reflexivity.
Defined.

(** ** The distance guard *)

(** A finite binary64 number times 0 is a zero ([0.0] or [-0.0], both equal
    to [0.0] under [==]). *)
Lemma finite_times_zero (x : float) :
  is_finite x = true -> (x * 0 =? 0)%float = true.
Proof.
  unfold is_finite, is_nan, is_infinity.
  rewrite !FloatAxioms.eqb_spec, FloatAxioms.abs_spec, FloatAxioms.mul_spec.
  change (Prim2SF 0) with (S754_zero false).
  change (Prim2SF infinity) with (S754_infinity false).
  destruct (Prim2SF x) as [s|s| |s m e]; try destruct s; cbn;
    intros H; try discriminate H; reflexivity.
Qed.

Lemma float_of_int_0 : float_of_int 0 = 0%float.
Proof. reflexivity. Qed.

Lemma distance_none_iff (r0 : Z) (v : float) :
  (if r0 =? 0 then None else Some v) = None <-> r0 = 0.
Proof.
  destruct (Z.eqb_spec r0 0) as [E|E]; split; intros H;
    try reflexivity; try assumption; try discriminate; contradiction.
Qed.

Lemma distance_some (r0 : Z) (v : float) :
  r0 <> 0 -> (if r0 =? 0 then None else Some v) = Some v.
Proof. intros H. destruct (Z.eqb_spec r0 0); [contradiction|reflexivity]. Qed.

(** Two equal samples with a nonzero revolution count: no speed, and the
    distance of a revolution delta of 0. *)
Lemma BikeSpeed_duplicate_distance (s : BikeSpeed.t) (wc : float)
  (d e : deque2) (x y : Z) :
  x <> 0 ->
  BikeSpeed._cumulative_speed_revolution s = append (append d x) x ->
  BikeSpeed._bike_speed_event_time s = append (append e y) y ->
  BikeSpeed.calculate_speed s wc = None
  /\ BikeSpeed.calculate_distance s wc = Some (wc * 0)%float.
Proof.
  intros Hx Hr Ht. split.
  - apply BikeSpeed_zero_delta. rewrite Ht. apply delta_append_twice.
  - rewrite BikeSpeed_distance_cases. cbv zeta.
    rewrite Hr, delta_append_twice, float_of_int_0. cbn [append slot0 slot1].
    destruct (Z.eqb_spec x 0); [contradiction|reflexivity].
Qed.

Lemma SpeedCadence_duplicate_distance (s : SpeedCadence.t) (wc : float)
  (d e : deque2) (x y : Z) :
  x <> 0 ->
  SpeedCadence._cumulative_speed_revolution s = append (append d x) x ->
  SpeedCadence._bike_speed_event_time s = append (append e y) y ->
  SpeedCadence.calculate_speed s wc = None
  /\ SpeedCadence.calculate_distance s wc = Some (wc * 0)%float.
Proof.
  intros Hx Hr Ht. split.
  - apply SpeedCadence_zero_delta. rewrite Ht. apply delta_append_twice.
  - rewrite SpeedCadence_distance_cases. cbv zeta.
    rewrite Hr, delta_append_twice, float_of_int_0. cbn [append slot0 slot1].
    destruct (Z.eqb_spec x 0); [contradiction|reflexivity].
Qed.

(** C10: [calculate_distance] returns [None] exactly when the older
    revolution count is 0.  It reads no event time: replacing the event-time
    history changes nothing, and with a nonzero older revolution count it
    returns [wheel_circumference * delta_revolutions], also when the older
    event time is 0 and [calculate_speed] returns [None]; a page processed
    twice, with a nonzero revolution count, leaves speed [None] and the
    distance [wheel_circumference * 0], which is 0.0 for every finite wheel
    circumference. *)
Theorem distance_guard (wc : float) (bs : BikeSpeed.t) (sc : SpeedCadence.t) :
  (let rev := BikeSpeed._cumulative_speed_revolution bs in
   let time := BikeSpeed._bike_speed_event_time bs in
   (BikeSpeed.calculate_distance bs wc = None <-> slot0 rev = 0)
   /\ (forall time' : deque2,
         BikeSpeed.calculate_distance
           (BikeSpeed.set_bike_speed_event_time bs time') wc
         = BikeSpeed.calculate_distance bs wc)
   /\ (slot0 rev <> 0 ->
       BikeSpeed.calculate_distance bs wc
       = Some (wc * float_of_int (delta rev))%float)
   /\ (slot0 rev <> 0 -> slot0 time = 0 ->
       BikeSpeed.calculate_speed bs wc = None
       /\ BikeSpeed.calculate_distance bs wc
          = Some (wc * float_of_int (delta rev))%float)
   /\ (forall (b : byte) (rest : list byte),
         int_from_bytes_little (slice 6 8 (b :: rest)) <> 0 ->
         exists s1 c1 s2 c2,
           BikeSpeed.processData bs (b :: rest) = Some (s1, c1)
           /\ BikeSpeed.processData s1 (b :: rest) = Some (s2, c2)
           /\ BikeSpeed._speed s2 = None
           /\ BikeSpeed._distance s2
              = Some (BikeSpeed._wheel_circumference bs * 0)%float
           /\ (is_finite (BikeSpeed._wheel_circumference bs) = true ->
               (BikeSpeed._wheel_circumference bs * 0 =? 0)%float = true)))
  /\
  (let rev := SpeedCadence._cumulative_speed_revolution sc in
   let time := SpeedCadence._bike_speed_event_time sc in
   (SpeedCadence.calculate_distance sc wc = None <-> slot0 rev = 0)
   /\ (forall time' : deque2,
         SpeedCadence.calculate_distance
           (SpeedCadence.set_bike_speed_event_time sc time') wc
         = SpeedCadence.calculate_distance sc wc)
   /\ (slot0 rev <> 0 ->
       SpeedCadence.calculate_distance sc wc
       = Some (wc * float_of_int (delta rev))%float)
   /\ (slot0 rev <> 0 -> slot0 time = 0 ->
       SpeedCadence.calculate_speed sc wc = None
       /\ SpeedCadence.calculate_distance sc wc
          = Some (wc * float_of_int (delta rev))%float)
   /\ (forall (b : byte) (rest : list byte),
         Z.land (byte_val b) 15 <= 5 ->
         int_from_bytes_little (slice 6 8 (b :: rest)) <> 0 ->
         exists s1 c1 s2 c2,
           SpeedCadence.processData sc (b :: rest) = Some (s1, c1)
           /\ SpeedCadence.processData s1 (b :: rest) = Some (s2, c2)
           /\ SpeedCadence._speed s2 = None
           /\ SpeedCadence._distance s2
              = Some (SpeedCadence._wheel_circumference sc * 0)%float
           /\ (is_finite (SpeedCadence._wheel_circumference sc) = true ->
               (SpeedCadence._wheel_circumference sc * 0 =? 0)%float = true))).
Proof.
  cbv zeta. split.
  - rewrite BikeSpeed_distance_cases. cbv zeta.
    split; [apply distance_none_iff|]. split; [reflexivity|].
    split; [|split].
    + intros Hr. now apply distance_some.
    + intros Hr Ht. split.
      * rewrite BikeSpeed_speed_cases. cbv zeta. apply rate_guard_none. tauto.
      * now apply distance_some.
    + intros b rest Hx.
      destruct (BikeSpeed_processData_step bs b rest)
        as (s1 & E1 & _ & Hw1 & Ht1 & Hr1 & _).
      destruct (BikeSpeed_processData_step s1 b rest)
        as (s2 & E2 & _ & _ & Ht2 & Hr2 & Hs & Hd & _).
      cbv zeta in Ht1, Hr1, Ht2, Hr2.
      rewrite Ht1 in Ht2. rewrite Hr1 in Hr2. rewrite Hw1 in Hs, Hd.
      destruct (BikeSpeed_duplicate_distance s2
                  (BikeSpeed._wheel_circumference bs) _ _ _ _ Hx Hr2 Ht2)
        as [Hs0 Hd0].
      rewrite Hs0 in Hs. rewrite Hd0 in Hd.
      eexists s1, _, s2, _. split; [exact E1|]. split; [exact E2|].
      split; [exact Hs|]. split; [exact Hd|]. apply finite_times_zero.
  - rewrite SpeedCadence_distance_cases. cbv zeta.
    split; [apply distance_none_iff|]. split; [reflexivity|].
    split; [|split].
    + intros Hr. now apply distance_some.
    + intros Hr Ht. split.
      * rewrite SpeedCadence_speed_cases. cbv zeta.
        apply rate_guard_none. tauto.
      * now apply distance_some.
    + intros b rest Hn Hx.
      destruct (SpeedCadence_processData_accepted sc b rest Hn)
        as (s1 & E1 & _ & Hw1 & _ & _ & Ht1 & Hr1 & _).
      destruct (SpeedCadence_processData_accepted s1 b rest Hn)
        as (s2 & E2 & _ & _ & _ & _ & Ht2 & Hr2 & Hs & Hd & _).
      rewrite Ht1 in Ht2. rewrite Hr1 in Hr2. rewrite Hw1 in Hs, Hd.
      destruct (SpeedCadence_duplicate_distance s2
                  (SpeedCadence._wheel_circumference sc) _ _ _ _ Hx Hr2 Ht2)
        as [Hs0 Hd0].
      rewrite Hs0 in Hs. rewrite Hd0 in Hd.
      eexists s1, _, s2, _. split; [exact E1|]. split; [exact E2|].
      split; [exact Hs|]. split; [exact Hd|]. apply finite_times_zero.
Qed.

Lemma distance_guard_witness :
  let bs := BikeSpeed.Build (fun _ => true) None None 2.105%float
              (Deque 0 1024) (Deque 1 2) false (Some 0) in
  (BikeSpeed.calculate_speed bs 2.105 = None
   /\ BikeSpeed.calculate_distance bs 2.105 = Some 2.105%float)
  /\
  (exists s1 c1 s2 c2,
     BikeSpeed.processData bs (page_of x00 x00 x08 x03 x00) = Some (s1, c1)
     /\ BikeSpeed.processData s1 (page_of x00 x00 x08 x03 x00) = Some (s2, c2)
     /\ BikeSpeed._speed s2 = None
     /\ BikeSpeed._distance s2 = Some 0%float).
Proof.
  cbv zeta.
  match goal with
  | |- (BikeSpeed.calculate_speed ?bs _ = _ /\ _) /\ _ =>
    destruct (distance_guard 2.105 bs
                (SpeedCadence.__init__ 2.105 (fun _ => true)))
      as [(_ & _ & _ & Hzero & Hdup) _]
  end.
  cbv zeta in Hzero, Hdup. split.
  - destruct Hzero as [Hs Hd]; [cbn; lia | reflexivity |].
    split; [exact Hs|]. rewrite Hd. reflexivity.
  - destruct (Hdup x00 [x00; x00; x00; x00; x08; x03; x00])
      as (s1 & c1 & s2 & c2 & E1 & E2 & Hs & Hd & _);
      [vm_compute; discriminate|].
    exists s1, c1, s2, c2. repeat split; assumption.
Defined.

(** * Further properties of the decoders *)

(** ** A nonempty payload is decoded *)

Lemma SpeedCadence_processData_total
  (sc : SpeedCadence.t) (b : byte) (rest : list byte) :
  exists s' calls, SpeedCadence.processData sc (b :: rest) = Some (s', calls).
Proof.
  destruct (Z_le_gt_dec (Z.land (byte_val b) 15) 5) as [Hn|Hn].
  - destruct (SpeedCadence_processData_accepted sc b rest Hn) as (s' & E & _).
    eexists s', _. exact E.
  - exists sc, []. apply SpeedCadence_processData_ignored. lia.
Qed.

(** ** Invariants of a fed decoder *)

Section FeedInvariant.

Context {S : Type}
        (process : S -> list byte -> option (S * list callback_call))
        (P : S -> Prop).

Hypothesis keeps : forall (s : S) (b : byte) (rest : list byte),
  P s -> exists s' calls, process s (b :: rest) = Some (s', calls) /\ P s'.

Lemma feed_keeps (pages : list (list byte)) : forall s : S,
  Forall (fun p => p <> []) pages ->
  P s ->
  exists s', feed process s pages = Some s' /\ P s'.
Proof.
  induction pages as [|p ps IH]; intros s Hne HP.
  - exists s. split; [reflexivity|assumption].
  - inversion Hne as [|? ? Hp Hps]; subst.
    destruct p as [|b rest]; [congruence|].
    destruct (keeps s b rest HP) as (s1 & calls & E & HP1).
    destruct (IH s1 Hps HP1) as (s' & Ef & HP').
    exists s'. cbn [feed]. rewrite E. split; assumption.
Qed.

End FeedInvariant.

(** X2: no page changes the configuration of a decoder: after any pages the
    wheel circumference and the registered listeners are those the decoder
    was built with. *)
Theorem configuration_is_kept
  (bs : BikeSpeed.t) (bc : BikeCadence.t) (sc : SpeedCadence.t)
  (pages : list (list byte)) :
  Forall (fun p => p <> []) pages ->
  (exists s',
     feed BikeSpeed.processData bs pages = Some s'
     /\ BikeSpeed._wheel_circumference s' = BikeSpeed._wheel_circumference bs
     /\ BikeSpeed.callbacks s' = BikeSpeed.callbacks bs)
  /\
  (exists s',
     feed BikeCadence.processData bc pages = Some s'
     /\ BikeCadence.callbacks s' = BikeCadence.callbacks bc)
  /\
  (exists s',
     feed SpeedCadence.processData sc pages = Some s'
     /\ SpeedCadence._wheel_circumference s'
        = SpeedCadence._wheel_circumference sc
     /\ SpeedCadence.callbacks s' = SpeedCadence.callbacks sc).
Proof.
  intros Hne. split; [|split].
  - apply (feed_keeps BikeSpeed.processData
             (fun s => BikeSpeed._wheel_circumference s
                       = BikeSpeed._wheel_circumference bs
                       /\ BikeSpeed.callbacks s = BikeSpeed.callbacks bs));
      [|assumption|split; reflexivity].
    intros s b rest [Hw Hc].
    destruct (BikeSpeed_processData_step s b rest) as (s' & E & Hc' & Hw' & _).
    eexists s', _. split; [exact E|]. split; congruence.
  - apply (feed_keeps BikeCadence.processData
             (fun s => BikeCadence.callbacks s = BikeCadence.callbacks bc));
      [|assumption|reflexivity].
    intros s b rest Hc.
    destruct (BikeCadence_processData_step s b rest) as (s' & E & Hc' & _).
    eexists s', _. split; [exact E|]. congruence.
  - apply (feed_keeps SpeedCadence.processData
             (fun s => SpeedCadence._wheel_circumference s
                       = SpeedCadence._wheel_circumference sc
                       /\ SpeedCadence.callbacks s = SpeedCadence.callbacks sc));
      [|assumption|split; reflexivity].
    intros s b rest [Hw Hc].
    destruct (Z_le_gt_dec (Z.land (byte_val b) 15) 5) as [Hn|Hn].
    + destruct (SpeedCadence_processData_accepted s b rest Hn)
        as (s' & E & Hc' & Hw' & _).
      eexists s', _. split; [exact E|]. split; congruence.
    + exists s, []. split; [apply SpeedCadence_processData_ignored; lia|].
      split; assumption.
Qed.

Lemma configuration_is_kept_witness :
  exists s',
    feed BikeSpeed.processData (BikeSpeed.__init__ 2.105 (fun _ => true))
         [page_of x00 x00 x04 x01 x00; [x80]; page_of x00 x00 x08 x02 x00]
    = Some s'
    /\ BikeSpeed._wheel_circumference s' = 2.105%float.
Proof.
  destruct (configuration_is_kept
              (BikeSpeed.__init__ 2.105 (fun _ => true))
              (BikeCadence.__init__ (fun _ => true))
              (SpeedCadence.__init__ 2.105 (fun _ => true))
              [page_of x00 x00 x04 x01 x00; [x80]; page_of x00 x00 x08 x02 x00]
              ltac:(repeat constructor; discriminate))
    as ((s' & E & Hw & _) & _).
  exists s'. split; assumption.
Defined.

Lemma u16_append (d : deque2) (x : Z) :
  u16_history d -> 0 <= x < 65536 -> u16_history (append d x).
Proof. intros [_ H1] Hx. split; assumption. Qed.

(** X3: the histories only ever hold 16-bit unsigned samples: a decoder whose
    histories are 16-bit (a fresh one, with its zeros, is) still has 16-bit
    histories after any pages, of any length. *)
Theorem histories_stay_u16
  (bs : BikeSpeed.t) (bc : BikeCadence.t) (sc : SpeedCadence.t)
  (pages : list (list byte)) :
  Forall (fun p => p <> []) pages ->
  (u16_history (BikeSpeed._bike_speed_event_time bs) ->
   u16_history (BikeSpeed._cumulative_speed_revolution bs) ->
   exists s',
     feed BikeSpeed.processData bs pages = Some s'
     /\ u16_history (BikeSpeed._bike_speed_event_time s')
     /\ u16_history (BikeSpeed._cumulative_speed_revolution s'))
  /\
  (u16_history (BikeCadence._bike_cadence_event_time bc) ->
   u16_history (BikeCadence._cumulative_cadence_revolution bc) ->
   exists s',
     feed BikeCadence.processData bc pages = Some s'
     /\ u16_history (BikeCadence._bike_cadence_event_time s')
     /\ u16_history (BikeCadence._cumulative_cadence_revolution s'))
  /\
  (u16_history (SpeedCadence._bike_cadence_event_time sc) ->
   u16_history (SpeedCadence._cumulative_cadence_revolution sc) ->
   u16_history (SpeedCadence._bike_speed_event_time sc) ->
   u16_history (SpeedCadence._cumulative_speed_revolution sc) ->
   exists s',
     feed SpeedCadence.processData sc pages = Some s'
     /\ u16_history (SpeedCadence._bike_cadence_event_time s')
     /\ u16_history (SpeedCadence._cumulative_cadence_revolution s')
     /\ u16_history (SpeedCadence._bike_speed_event_time s')
     /\ u16_history (SpeedCadence._cumulative_speed_revolution s')).
Proof.
  intros Hne. split; [|split].
  - intros Ht Hr.
    apply (feed_keeps BikeSpeed.processData
             (fun s => u16_history (BikeSpeed._bike_speed_event_time s)
                       /\ u16_history (BikeSpeed._cumulative_speed_revolution s)));
      [|assumption|split; assumption].
    intros s b rest [Ht' Hr'].
    destruct (BikeSpeed_processData_step s b rest)
      as (s' & E & _ & _ & Ets & Ers & _).
    eexists s', _. split; [exact E|]. rewrite Ets, Ers.
    split; apply u16_append; try assumption;
      [apply (field_u16 4)|apply (field_u16 6)].
  - intros Ht Hr.
    apply (feed_keeps BikeCadence.processData
             (fun s => u16_history (BikeCadence._bike_cadence_event_time s)
                       /\ u16_history
                            (BikeCadence._cumulative_cadence_revolution s)));
      [|assumption|split; assumption].
    intros s b rest [Ht' Hr'].
    destruct (BikeCadence_processData_step s b rest)
      as (s' & E & _ & Ets & Ers & _).
    eexists s', _. split; [exact E|]. rewrite Ets, Ers.
    split; apply u16_append; try assumption;
      [apply (field_u16 4)|apply (field_u16 6)].
  - intros Hct Hcr Hst Hsr.
    apply (feed_keeps SpeedCadence.processData
             (fun s => u16_history (SpeedCadence._bike_cadence_event_time s)
                       /\ u16_history
                            (SpeedCadence._cumulative_cadence_revolution s)
                       /\ u16_history (SpeedCadence._bike_speed_event_time s)
                       /\ u16_history
                            (SpeedCadence._cumulative_speed_revolution s)));
      [|assumption|split; [|split; [|split]]; assumption].
    intros s b rest (H1 & H2 & H3 & H4).
    destruct (Z_le_gt_dec (Z.land (byte_val b) 15) 5) as [Hn|Hn].
    + destruct (SpeedCadence_processData_accepted s b rest Hn)
        as (s' & E & _ & _ & E1 & E2 & E3 & E4 & _).
      eexists s', _. split; [exact E|]. rewrite E1, E2, E3, E4.
      split; [|split; [|split]]; apply u16_append; try assumption;
        [apply (field_u16 0)|apply (field_u16 2)
         |apply (field_u16 4)|apply (field_u16 6)].
    + exists s, []. split; [apply SpeedCadence_processData_ignored; lia|].
      split; [|split; [|split]]; assumption.
Qed.

Lemma histories_stay_u16_witness :
  exists s',
    feed SpeedCadence.processData (SpeedCadence.__init__ 2.105 (fun _ => true))
         [[x05; xff; xff; xff; xff; xff; xff; xff; xff; xff]; [x06]; [x04; xff]]
    = Some s'
    /\ u16_history (SpeedCadence._bike_cadence_event_time s')
    /\ u16_history (SpeedCadence._cumulative_speed_revolution s').
Proof.
  destruct (histories_stay_u16
              (BikeSpeed.__init__ 2.105 (fun _ => true))
              (BikeCadence.__init__ (fun _ => true))
              (SpeedCadence.__init__ 2.105 (fun _ => true))
              [[x05; xff; xff; xff; xff; xff; xff; xff; xff; xff]; [x06];
               [x04; xff]]
              ltac:(repeat constructor; discriminate))
    as (_ & _ & H).
  destruct H as (s' & E & H1 & _ & _ & H4);
    try (split; cbn; lia).
  exists s'. split; [exact E|]. split; assumption.
Defined.

(** ** Only the last two pages count *)

Lemma BikeSpeed_measure_ext (s s' : BikeSpeed.t) (wc : float) :
  BikeSpeed._bike_speed_event_time s' = BikeSpeed._bike_speed_event_time s ->
  BikeSpeed._cumulative_speed_revolution s'
  = BikeSpeed._cumulative_speed_revolution s ->
  BikeSpeed.calculate_speed s' wc = BikeSpeed.calculate_speed s wc
  /\ BikeSpeed.calculate_distance s' wc = BikeSpeed.calculate_distance s wc.
Proof.
  intros Ht Hr. unfold BikeSpeed.calculate_speed, BikeSpeed.calculate_distance.
  now rewrite Ht, Hr.
Qed.

Lemma BikeCadence_measure_ext (s s' : BikeCadence.t) :
  BikeCadence._bike_cadence_event_time s'
  = BikeCadence._bike_cadence_event_time s ->
  BikeCadence._cumulative_cadence_revolution s'
  = BikeCadence._cumulative_cadence_revolution s ->
  BikeCadence.calculate_cadence s' = BikeCadence.calculate_cadence s.
Proof.
  intros Ht Hr. unfold BikeCadence.calculate_cadence. now rewrite Ht, Hr.
Qed.

(** Two pages in a row fill both slots of a dedicated speed decoder. *)
Lemma BikeSpeed_two_pages (s : BikeSpeed.t) (b1 b2 : byte) (rest1 rest2 : list byte) :
  exists s2,
    feed BikeSpeed.processData s [b1 :: rest1; b2 :: rest2] = Some s2
    /\ BikeSpeed._bike_speed_event_time s2
       = Deque (int_from_bytes_little (slice 4 6 (b1 :: rest1)))
               (int_from_bytes_little (slice 4 6 (b2 :: rest2)))
    /\ BikeSpeed._cumulative_speed_revolution s2
       = Deque (int_from_bytes_little (slice 6 8 (b1 :: rest1)))
               (int_from_bytes_little (slice 6 8 (b2 :: rest2)))
    /\ BikeSpeed._speed s2
       = BikeSpeed.calculate_speed s2 (BikeSpeed._wheel_circumference s)
    /\ BikeSpeed._distance s2
       = BikeSpeed.calculate_distance s2 (BikeSpeed._wheel_circumference s).
Proof.
  destruct (BikeSpeed_processData_step s b1 rest1)
    as (s1 & E1 & _ & Hw1 & Ht1 & Hr1 & _).
  destruct (BikeSpeed_processData_step s1 b2 rest2)
    as (s2 & E2 & _ & _ & Ht2 & Hr2 & Hs & Hd & _).
  cbv zeta in E1, E2, Ht1, Hr1, Ht2, Hr2.
  exists s2. cbn [feed]. rewrite E1, E2. split; [reflexivity|].
  rewrite Ht2, Hr2, Ht1, Hr1, <- Hw1. repeat split; assumption.
Qed.

Lemma BikeCadence_two_pages (s : BikeCadence.t) (b1 b2 : byte) (rest1 rest2 : list byte) :
  exists s2,
    feed BikeCadence.processData s [b1 :: rest1; b2 :: rest2] = Some s2
    /\ BikeCadence._bike_cadence_event_time s2
       = Deque (int_from_bytes_little (slice 4 6 (b1 :: rest1)))
               (int_from_bytes_little (slice 4 6 (b2 :: rest2)))
    /\ BikeCadence._cumulative_cadence_revolution s2
       = Deque (int_from_bytes_little (slice 6 8 (b1 :: rest1)))
               (int_from_bytes_little (slice 6 8 (b2 :: rest2)))
    /\ BikeCadence._cadence s2 = BikeCadence.calculate_cadence s2.
Proof.
  destruct (BikeCadence_processData_step s b1 rest1)
    as (s1 & E1 & _ & Ht1 & Hr1 & _).
  destruct (BikeCadence_processData_step s1 b2 rest2)
    as (s2 & E2 & _ & Ht2 & Hr2 & Hc & _).
  cbv zeta in E1, E2, Ht1, Hr1, Ht2, Hr2.
  exists s2. cbn [feed]. rewrite E1, E2. split; [reflexivity|].
  rewrite Ht2, Hr2, Ht1, Hr1. repeat split; assumption.
Qed.

(** X4: the histories and the stored measurement of a dedicated decoder
    depend on the last two pages only.  Whatever two decoders held before
    (with the same wheel circumference for speed), after the same two pages
    they hold the same histories, the counters of those two pages, and the
    same speed, distance and cadence.  The toggle fields are another matter:
    they keep what the first page ever seen set, and may still differ. *)
Theorem last_two_pages_give_the_measurement
  (bs bs' : BikeSpeed.t) (bc bc' : BikeCadence.t)
  (b1 b2 : byte) (rest1 rest2 : list byte) :
  BikeSpeed._wheel_circumference bs = BikeSpeed._wheel_circumference bs' ->
  let p1 := b1 :: rest1 in
  let p2 := b2 :: rest2 in
  (exists s2 s2',
     feed BikeSpeed.processData bs [p1; p2] = Some s2
     /\ feed BikeSpeed.processData bs' [p1; p2] = Some s2'
     /\ BikeSpeed._bike_speed_event_time s2
        = Deque (int_from_bytes_little (slice 4 6 p1))
                (int_from_bytes_little (slice 4 6 p2))
     /\ BikeSpeed._cumulative_speed_revolution s2
        = Deque (int_from_bytes_little (slice 6 8 p1))
                (int_from_bytes_little (slice 6 8 p2))
     /\ BikeSpeed._bike_speed_event_time s2'
        = BikeSpeed._bike_speed_event_time s2
     /\ BikeSpeed._cumulative_speed_revolution s2'
        = BikeSpeed._cumulative_speed_revolution s2
     /\ BikeSpeed._speed s2' = BikeSpeed._speed s2
     /\ BikeSpeed._distance s2' = BikeSpeed._distance s2)
  /\
  (exists s2 s2',
     feed BikeCadence.processData bc [p1; p2] = Some s2
     /\ feed BikeCadence.processData bc' [p1; p2] = Some s2'
     /\ BikeCadence._bike_cadence_event_time s2
        = Deque (int_from_bytes_little (slice 4 6 p1))
                (int_from_bytes_little (slice 4 6 p2))
     /\ BikeCadence._cumulative_cadence_revolution s2
        = Deque (int_from_bytes_little (slice 6 8 p1))
                (int_from_bytes_little (slice 6 8 p2))
     /\ BikeCadence._bike_cadence_event_time s2'
        = BikeCadence._bike_cadence_event_time s2
     /\ BikeCadence._cumulative_cadence_revolution s2'
        = BikeCadence._cumulative_cadence_revolution s2
     /\ BikeCadence._cadence s2' = BikeCadence._cadence s2).
Proof.
  intros Hw. cbv zeta. split.
  - destruct (BikeSpeed_two_pages bs b1 b2 rest1 rest2)
      as (s2 & E & Ht & Hr & Hs & Hd).
    destruct (BikeSpeed_two_pages bs' b1 b2 rest1 rest2)
      as (s2' & E' & Ht' & Hr' & Hs' & Hd').
    assert (Et : BikeSpeed._bike_speed_event_time s2'
                 = BikeSpeed._bike_speed_event_time s2) by congruence.
    assert (Er : BikeSpeed._cumulative_speed_revolution s2'
                 = BikeSpeed._cumulative_speed_revolution s2) by congruence.
    destruct (BikeSpeed_measure_ext s2 s2'
                (BikeSpeed._wheel_circumference bs) Et Er) as [Es Ed].
    exists s2, s2'. rewrite <- Hw in Hs', Hd'.
    repeat split; try assumption; congruence.
  - destruct (BikeCadence_two_pages bc b1 b2 rest1 rest2)
      as (s2 & E & Ht & Hr & Hc).
    destruct (BikeCadence_two_pages bc' b1 b2 rest1 rest2)
      as (s2' & E' & Ht' & Hr' & Hc').
    assert (Et : BikeCadence._bike_cadence_event_time s2'
                 = BikeCadence._bike_cadence_event_time s2) by congruence.
    assert (Er : BikeCadence._cumulative_cadence_revolution s2'
                 = BikeCadence._cumulative_cadence_revolution s2)
      by congruence.
    pose proof (BikeCadence_measure_ext s2 s2' Et Er) as Ec.
    exists s2, s2'. repeat split; try assumption; congruence.
Qed.

Lemma last_two_pages_give_the_measurement_witness :
  exists s2 s2',
    feed BikeSpeed.processData (BikeSpeed.__init__ 2.105 (fun _ => true))
         [page_of x00 x00 x04 x01 x00; page_of x00 x00 x08 x02 x00] = Some s2
    /\ feed BikeSpeed.processData
         (BikeSpeed.Build (fun _ => false) None (Some 1%float) 2.105%float
            (Deque 17 4711) (Deque 65535 3) true (Some 1))
         [page_of x00 x00 x04 x01 x00; page_of x00 x00 x08 x02 x00] = Some s2'
    /\ BikeSpeed._speed s2' = BikeSpeed._speed s2
    /\ BikeSpeed._distance s2' = BikeSpeed._distance s2.
Proof.
  destruct (last_two_pages_give_the_measurement
              (BikeSpeed.__init__ 2.105 (fun _ => true))
              (BikeSpeed.Build (fun _ => false) None (Some 1%float) 2.105%float
                 (Deque 17 4711) (Deque 65535 3) true (Some 1))
              (BikeCadence.__init__ (fun _ => true))
              (BikeCadence.__init__ (fun _ => true))
              x00 x00 [x00; x00; x00; x00; x04; x01; x00]
              [x00; x00; x00; x00; x08; x02; x00] eq_refl)
    as ((s2 & s2' & E & E' & _ & _ & _ & _ & Hs & Hd) & _).
  exists s2, s2'. repeat split; assumption.
Defined.

(** ** A zero sample silences the page after it *)

Lemma truncated_revolutions (data : list byte) :
  (List.length data <= 6)%nat -> int_from_bytes_little (slice 6 8 data) = 0.
Proof.
  intros H. unfold slice. rewrite skipn_all2 by exact H. reflexivity.
Qed.

(** X5: the guards cannot tell a counter that reads 0 from an empty slot.  In
    a dedicated decoder, whatever it held, a page whose revolution count is
    0 makes the next page report no speed, no distance and no cadence,
    whatever that next page carries; a page whose event time is 0 makes the
    next page report no speed and no cadence.  A payload of at most 6 bytes
    is such a page: its revolution count decodes to 0. *)
Theorem zero_sample_silences_next_page
  (bs : BikeSpeed.t) (bc : BikeCadence.t)
  (b1 b2 : byte) (rest1 rest2 : list byte) :
  let p1 := b1 :: rest1 in
  let p2 := b2 :: rest2 in
  (int_from_bytes_little (slice 6 8 p1) = 0 ->
   (exists s2,
      feed BikeSpeed.processData bs [p1; p2] = Some s2
      /\ BikeSpeed._speed s2 = None /\ BikeSpeed._distance s2 = None)
   /\
   (exists s2,
      feed BikeCadence.processData bc [p1; p2] = Some s2
      /\ BikeCadence._cadence s2 = None))
  /\
  (int_from_bytes_little (slice 4 6 p1) = 0 ->
   (exists s2,
      feed BikeSpeed.processData bs [p1; p2] = Some s2
      /\ BikeSpeed._speed s2 = None)
   /\
   (exists s2,
      feed BikeCadence.processData bc [p1; p2] = Some s2
      /\ BikeCadence._cadence s2 = None))
  /\
  ((List.length p1 <= 6)%nat -> int_from_bytes_little (slice 6 8 p1) = 0).
Proof.
  cbv zeta.
  destruct (BikeSpeed_two_pages bs b1 b2 rest1 rest2)
    as (s2 & E & Ht & Hr & Hs & Hd).
  destruct (BikeCadence_two_pages bc b1 b2 rest1 rest2)
    as (c2 & E' & Ht' & Hr' & Hc).
  rewrite BikeSpeed_speed_cases in Hs. rewrite BikeSpeed_distance_cases in Hd.
  rewrite BikeCadence_cadence_cases in Hc. cbv zeta in Hs, Hd, Hc.
  split; [|split].
  - intros H0. rewrite Hr in Hs, Hd. rewrite Hr' in Hc.
    cbn [slot0] in Hs, Hd, Hc. rewrite H0 in Hs, Hd, Hc.
    split; [exists s2|exists c2]; repeat split; assumption.
  - intros H0. rewrite Ht in Hs. rewrite Ht' in Hc.
    cbn [slot0] in Hs, Hc. rewrite H0 in Hs, Hc.
    rewrite Z.eqb_refl, orb_true_r in Hs, Hc. cbn [orb] in Hs, Hc.
    split; [exists s2|exists c2]; repeat split; assumption.
  - apply truncated_revolutions.
Qed.

Lemma zero_sample_silences_next_page_witness :
  exists s2,
    feed BikeSpeed.processData
         (BikeSpeed.Build (fun _ => true) (Some 7.578%float)
            (Some 2.105%float) 2.105%float
            (Deque 1024 2048) (Deque 1 2) false (Some 0))
         [[x00; x00; x00; x00; x00; x0c]; page_of x00 x00 x10 x04 x00]
    = Some s2
    /\ BikeSpeed._speed s2 = None /\ BikeSpeed._distance s2 = None.
Proof.
  apply (zero_sample_silences_next_page
           (BikeSpeed.Build (fun _ => true) (Some 7.578%float)
              (Some 2.105%float) 2.105%float
              (Deque 1024 2048) (Deque 1 2) false (Some 0))
           (BikeCadence.__init__ (fun _ => true))
           x00 x00 [x00; x00; x00; x00; x0c]
           [x00; x00; x00; x00; x10; x04; x00]).
  reflexivity.
Defined.

(** ** Byte 0 of a dedicated page *)

(** X6: in a dedicated decoder neither the page number nor the toggle bit
    gates the measurement: two payloads that differ in byte 0 only give the
    same histories, the same speed, distance and cadence and the same
    listener calls. *)
Theorem dedicated_measurement_ignores_byte0
  (bs : BikeSpeed.t) (bc : BikeCadence.t) (b b' : byte) (rest : list byte) :
  (exists s s' calls,
     BikeSpeed.processData bs (b :: rest) = Some (s, calls)
     /\ BikeSpeed.processData bs (b' :: rest) = Some (s', calls)
     /\ BikeSpeed._bike_speed_event_time s' = BikeSpeed._bike_speed_event_time s
     /\ BikeSpeed._cumulative_speed_revolution s'
        = BikeSpeed._cumulative_speed_revolution s
     /\ BikeSpeed._speed s' = BikeSpeed._speed s
     /\ BikeSpeed._distance s' = BikeSpeed._distance s)
  /\
  (exists s s' calls,
     BikeCadence.processData bc (b :: rest) = Some (s, calls)
     /\ BikeCadence.processData bc (b' :: rest) = Some (s', calls)
     /\ BikeCadence._bike_cadence_event_time s'
        = BikeCadence._bike_cadence_event_time s
     /\ BikeCadence._cumulative_cadence_revolution s'
        = BikeCadence._cumulative_cadence_revolution s
     /\ BikeCadence._cadence s' = BikeCadence._cadence s).
Proof.
  split.
  - destruct (BikeSpeed_processData_step bs b rest)
      as (s & E & _ & _ & Ht & Hr & Hs & Hd & _).
    destruct (BikeSpeed_processData_step bs b' rest)
      as (s' & E' & _ & _ & Ht' & Hr' & Hs' & Hd' & _).
    cbv zeta in E, E', Ht, Hr, Ht', Hr'.
    assert (Et : BikeSpeed._bike_speed_event_time s'
                 = BikeSpeed._bike_speed_event_time s)
      by (rewrite Ht, Ht'; reflexivity).
    assert (Er : BikeSpeed._cumulative_speed_revolution s'
                 = BikeSpeed._cumulative_speed_revolution s)
      by (rewrite Hr, Hr'; reflexivity).
    destruct (BikeSpeed_measure_ext s s'
                (BikeSpeed._wheel_circumference bs) Et Er) as [Es Ed].
    assert (Hss : BikeSpeed._speed s' = BikeSpeed._speed s) by congruence.
    assert (Hdd : BikeSpeed._distance s' = BikeSpeed._distance s)
      by congruence.
    rewrite Hss, Hdd in E'.
    eexists s, s', _. repeat split; eassumption.
  - destruct (BikeCadence_processData_step bc b rest)
      as (s & E & _ & Ht & Hr & Hc & _).
    destruct (BikeCadence_processData_step bc b' rest)
      as (s' & E' & _ & Ht' & Hr' & Hc' & _).
    cbv zeta in E, E', Ht, Hr, Ht', Hr'.
    assert (Et : BikeCadence._bike_cadence_event_time s'
                 = BikeCadence._bike_cadence_event_time s)
      by (rewrite Ht, Ht'; reflexivity).
    assert (Er : BikeCadence._cumulative_cadence_revolution s'
                 = BikeCadence._cumulative_cadence_revolution s)
      by (rewrite Hr, Hr'; reflexivity).
    pose proof (BikeCadence_measure_ext s s' Et Er) as Ec.
    assert (Hcc : BikeCadence._cadence s' = BikeCadence._cadence s)
      by congruence.
    rewrite Hcc in E'.
    eexists s, s', _. repeat split; eassumption.
Qed.

(** ** The combined decoder against the speed decoder *)




(** ** Byte 0 of a combined page *)

(** The combined decoder tests the low nibble of [data[0]] and then reads
    the cadence event time from [data[0:2]]: the tested nibble is the low
    nibble of that event time. *)
Lemma low_nibble_of_first_field (b : byte) (rest : list byte) :
  Z.land (int_from_bytes_little (slice 0 2 (b :: rest))) 15
  = Z.land (byte_val b) 15.
Proof.
  unfold slice. cbn [Nat.sub skipn firstn int_from_bytes_little].
  match goal with |- context [256 * ?hi] => generalize hi; intros k end.
  change 15 with (Z.ones 4). rewrite !Z.land_ones by lia.
  change (2 ^ 4) with 16.
  replace (byte_val b + 256 * k) with (byte_val b + 16 * k * 16) by lia.
  apply Z.mod_add. lia.
Qed.

(** X8: the combined decoder never records a cadence event time whose low
    nibble exceeds 5: the page filter is a test on the low byte of that very
    field, so a page whose cadence event time ends in a nibble of 6 to 15 is
    dropped whole.  The property holds of a fresh decoder and is kept by
    every page. *)
Theorem combined_cadence_time_nibble
  (sc : SpeedCadence.t) (pages : list (list byte)) :
  Forall (fun p => p <> []) pages ->
  Z.land (slot0 (SpeedCadence._bike_cadence_event_time sc)) 15 <= 5 ->
  Z.land (slot1 (SpeedCadence._bike_cadence_event_time sc)) 15 <= 5 ->
  exists s',
    feed SpeedCadence.processData sc pages = Some s'
    /\ Z.land (slot0 (SpeedCadence._bike_cadence_event_time s')) 15 <= 5
    /\ Z.land (slot1 (SpeedCadence._bike_cadence_event_time s')) 15 <= 5.
Proof.
  intros Hne H0 H1.
  apply (feed_keeps SpeedCadence.processData
           (fun s =>
              Z.land (slot0 (SpeedCadence._bike_cadence_event_time s)) 15 <= 5
              /\ Z.land (slot1 (SpeedCadence._bike_cadence_event_time s)) 15
                 <= 5));
    [|assumption|split; assumption].
  intros s b rest [Hs0 Hs1].
  destruct (Z_le_gt_dec (Z.land (byte_val b) 15) 5) as [Hn|Hn].
  - destruct (SpeedCadence_processData_accepted s b rest Hn)
      as (s' & E & _ & _ & Hct & _).
    eexists s', _. split; [exact E|]. rewrite Hct.
    cbn [append slot0 slot1]. rewrite low_nibble_of_first_field.
    split; assumption.
  - exists s, []. split; [apply SpeedCadence_processData_ignored; lia|].
    split; assumption.
Qed.

Lemma combined_cadence_time_nibble_witness :
  exists s',
    feed SpeedCadence.processData (SpeedCadence.__init__ 2.105 (fun _ => true))
         [[x05; x04; x01; x00; x00; x04; x01; x00];
          [x06; x06; x02; x00; x00; x08; x02; x00];
          [x13; x08; x03; x00; x00; x0c; x03; x00]] = Some s'
    /\ Z.land (slot0 (SpeedCadence._bike_cadence_event_time s')) 15 <= 5
    /\ Z.land (slot1 (SpeedCadence._bike_cadence_event_time s')) 15 <= 5.
Proof.
  apply (combined_cadence_time_nibble
           (SpeedCadence.__init__ 2.105 (fun _ => true))
           [[x05; x04; x01; x00; x00; x04; x01; x00];
            [x06; x06; x02; x00; x00; x08; x02; x00];
            [x13; x08; x03; x00; x00; x0c; x03; x00]]);
    [repeat constructor; discriminate | cbn; lia | cbn; lia].
Defined.

(** ** Ignored pages are transparent *)

Lemma accepted_false (b : byte) (rest : list byte) :
  accepted (b :: rest) = false -> 5 < Z.land (byte_val b) 15.
Proof.
  unfold accepted. destruct (Z.leb_spec (Z.land (byte_val b) 15) 5);
    [discriminate|lia].
Qed.

(** X9: for the combined decoder the pages it ignores might as well not have
    been sent: feeding any pages leaves the decoder in the state that
    feeding only the accepted ones (low nibble of byte 0 at most 5) leaves
    it in. *)
Theorem ignored_pages_are_transparent
  (pages : list (list byte)) : forall sc : SpeedCadence.t,
  Forall (fun p => p <> []) pages ->
  exists s',
    feed SpeedCadence.processData sc pages = Some s'
    /\ feed SpeedCadence.processData sc (filter accepted pages) = Some s'.
Proof.
  induction pages as [|p ps IH]; intros sc Hne.
  - exists sc. split; reflexivity.
  - inversion Hne as [|? ? Hp Hps]; subst.
    destruct p as [|b rest]; [congruence|].
    cbn [filter]. destruct (accepted (b :: rest)) eqn:Ha.
    + destruct (SpeedCadence_processData_total sc b rest) as (s1 & c & E).
      destruct (IH s1 Hps) as (s' & F & F').
      exists s'. cbn [feed]. rewrite E. split; assumption.
    + apply accepted_false in Ha.
      destruct (IH sc Hps) as (s' & F & F').
      exists s'. cbn [feed].
      rewrite (SpeedCadence_processData_ignored sc b rest Ha).
      split; assumption.
Qed.

Lemma ignored_pages_are_transparent_witness :
  exists s',
    feed SpeedCadence.processData (SpeedCadence.__init__ 2.105 (fun _ => true))
         [[x05; x04; x01; x00; x00; x04; x01; x00];
          [x06; x06; x02; x00; x00; x08; x02; x00];
          [x13; x08; x03; x00; x00; x0c; x03; x00]] = Some s'
    /\ feed SpeedCadence.processData
         (SpeedCadence.__init__ 2.105 (fun _ => true))
         [[x05; x04; x01; x00; x00; x04; x01; x00];
          [x13; x08; x03; x00; x00; x0c; x03; x00]] = Some s'.
Proof.
  apply (ignored_pages_are_transparent
           [[x05; x04; x01; x00; x00; x04; x01; x00];
            [x06; x06; x02; x00; x00; x08; x02; x00];
            [x13; x08; x03; x00; x00; x0c; x03; x00]]
           (SpeedCadence.__init__ 2.105 (fun _ => true))).
  repeat constructor; discriminate.
Defined.

(** ** The remembered toggle bit *)

Lemma toggle_bit_is_a_bit (data : list byte) :
  toggle_bit data = 0 \/ toggle_bit data = 1.
Proof.
  destruct data as [|b rest]; [left; reflexivity|].
  cbn [toggle_bit]. pose proof (byte_val_range b) as H.
  rewrite Z.shiftr_div_pow2 by lia. change (2 ^ 7) with 128.
  assert (0 <= byte_val b / 128 < 2)
    by (split; [apply Z.div_pos; lia|apply Z.div_lt_upper_bound; lia]).
  lia.
Qed.

(** X10: a dedicated decoder remembers the toggle bit of the first page it
    was given and never replaces it: after any pages from a fresh decoder
    [_page_toggle] is the toggle bit, 0 or 1, of the first one. *)
Theorem first_toggle_is_kept
  (wc : float) (cbs : listeners) (p0 : list byte) (ps : list (list byte)) :
  Forall (fun p => p <> []) (p0 :: ps) ->
  (toggle_bit p0 = 0 \/ toggle_bit p0 = 1)
  /\
  (exists s,
     feed BikeSpeed.processData (BikeSpeed.__init__ wc cbs) (p0 :: ps) = Some s
     /\ BikeSpeed._page_toggle s = Some (toggle_bit p0))
  /\
  (exists s,
     feed BikeCadence.processData (BikeCadence.__init__ cbs) (p0 :: ps)
     = Some s
     /\ BikeCadence._page_toggle s = Some (toggle_bit p0)).
Proof.
  intros Hne. inversion Hne as [|? ? Hp Hps]; subst.
  destruct p0 as [|b rest]; [congruence|].
  split; [apply toggle_bit_is_a_bit|]. split.
  - destruct (BikeSpeed_toggle_step (BikeSpeed.__init__ wc cbs) b rest)
      as (s1 & c & E & _ & Hf).
    cbn [BikeSpeed.__init__ BikeSpeed._page_toggle_observed
         BikeSpeed._page_toggle] in Hf.
    cbn [feed]. rewrite E.
    apply (feed_keeps BikeSpeed.processData
             (fun s => BikeSpeed._page_toggle s = Some (toggle_bit (b :: rest))));
      [|assumption|assumption].
    intros s b' rest' Hs.
    destruct (BikeSpeed_toggle_step s b' rest') as (s' & c' & E' & _ & Hf').
    eexists s', _. split; [exact E'|]. rewrite Hf', Hs.
    destruct (BikeSpeed._page_toggle_observed s); reflexivity.
  - destruct (BikeCadence_toggle_step (BikeCadence.__init__ cbs) b rest)
      as (s1 & c & E & _ & Hf).
    cbn [BikeCadence.__init__ BikeCadence._page_toggle_observed
         BikeCadence._page_toggle] in Hf.
    cbn [feed]. rewrite E.
    apply (feed_keeps BikeCadence.processData
             (fun s => BikeCadence._page_toggle s
                       = Some (toggle_bit (b :: rest))));
      [|assumption|assumption].
    intros s b' rest' Hs.
    destruct (BikeCadence_toggle_step s b' rest') as (s' & c' & E' & _ & Hf').
    eexists s', _. split; [exact E'|]. rewrite Hf', Hs.
    destruct (BikeCadence._page_toggle_observed s); reflexivity.
Qed.

Lemma first_toggle_is_kept_witness :
  exists s,
    feed BikeSpeed.processData (BikeSpeed.__init__ 2.105 (fun _ => true))
         [page_of x85 x00 x04 x01 x00; page_of x05 x00 x08 x02 x00;
          page_of x85 x00 x0c x03 x00] = Some s
    /\ BikeSpeed._page_toggle s = Some 1.
Proof.
  apply (first_toggle_is_kept 2.105 (fun _ => true)
           (page_of x85 x00 x04 x01 x00)
           [page_of x05 x00 x08 x02 x00; page_of x85 x00 x0c x03 x00]).
  repeat constructor; discriminate.
Defined.

(** ** The combined decoder against the cadence decoder *)

Lemma SpeedCadence_cadence_agrees (bc : BikeCadence.t) (sc : SpeedCadence.t) :
  SpeedCadence._bike_cadence_event_time sc
  = BikeCadence._bike_cadence_event_time bc ->
  SpeedCadence._cumulative_cadence_revolution sc
  = BikeCadence._cumulative_cadence_revolution bc ->
  SpeedCadence.calculate_cadence sc = BikeCadence.calculate_cadence bc.
Proof.
  intros Ht Hr.
  unfold SpeedCadence.calculate_cadence, BikeCadence.calculate_cadence.
  now rewrite Ht, Hr.
Qed.

(** X11: the combined decoder does for cadence what the cadence decoder does,
    on the other bytes: the dedicated decoder reads its counters from bytes
    4-5 and 6-7, the combined one reads the cadence counters from bytes 0-1
    and 2-3.  From equal cadence histories, a dedicated page and an accepted
    combined page that carry the same two counters leave equal histories and
    equal cadence. *)
Theorem combined_follows_cadence_decoder
  (bc : BikeCadence.t) (sc : SpeedCadence.t)
  (b b' : byte) (rest rest' : list byte) :
  Z.land (byte_val b') 15 <= 5 ->
  int_from_bytes_little (slice 0 2 (b' :: rest'))
  = int_from_bytes_little (slice 4 6 (b :: rest)) ->
  int_from_bytes_little (slice 2 4 (b' :: rest'))
  = int_from_bytes_little (slice 6 8 (b :: rest)) ->
  SpeedCadence._bike_cadence_event_time sc
  = BikeCadence._bike_cadence_event_time bc ->
  SpeedCadence._cumulative_cadence_revolution sc
  = BikeCadence._cumulative_cadence_revolution bc ->
  exists bc' sc' calls calls',
    BikeCadence.processData bc (b :: rest) = Some (bc', calls)
    /\ SpeedCadence.processData sc (b' :: rest') = Some (sc', calls')
    /\ SpeedCadence._bike_cadence_event_time sc'
       = BikeCadence._bike_cadence_event_time bc'
    /\ SpeedCadence._cumulative_cadence_revolution sc'
       = BikeCadence._cumulative_cadence_revolution bc'
    /\ SpeedCadence._cadence sc' = BikeCadence._cadence bc'.
Proof.
  intros Hn Ft Fr Ht Hr.
  destruct (BikeCadence_processData_step bc b rest)
    as (bc' & E & _ & Ht1 & Hr1 & Hc1 & _).
  destruct (SpeedCadence_processData_accepted sc b' rest' Hn)
    as (sc' & E' & _ & _ & Ht2 & Hr2 & _ & _ & _ & _ & Hc2).
  cbv zeta in E, Ht1, Hr1.
  assert (Et : SpeedCadence._bike_cadence_event_time sc'
               = BikeCadence._bike_cadence_event_time bc') by congruence.
  assert (Er : SpeedCadence._cumulative_cadence_revolution sc'
               = BikeCadence._cumulative_cadence_revolution bc')
    by congruence.
  pose proof (SpeedCadence_cadence_agrees bc' sc' Et Er) as Ec.
  eexists bc', sc', _, _. split; [exact E|]. split; [exact E'|].
  repeat split; congruence.
Qed.

Lemma combined_follows_cadence_decoder_witness :
  exists bc' sc' calls calls',
    BikeCadence.processData
      (BikeCadence.Build (fun _ => true) None (Deque 1024 1536) (Deque 41 42)
         false None)
      [x80; x00; x00; x00; x00; x08; x2b; x00] = Some (bc', calls)
    /\ SpeedCadence.processData
         (SpeedCadence.Build (fun _ => true) None None None 2.105%float
            (Deque 1024 1536) (Deque 41 42) (Deque 0 0) (Deque 0 0))
         [x00; x08; x2b; x00; x00; x00; x00; x00] = Some (sc', calls')
    /\ SpeedCadence._cadence sc' = BikeCadence._cadence bc'.
Proof.
  destruct (combined_follows_cadence_decoder
              (BikeCadence.Build (fun _ => true) None (Deque 1024 1536)
                 (Deque 41 42) false None)
              (SpeedCadence.Build (fun _ => true) None None None 2.105%float
                 (Deque 1024 1536) (Deque 41 42) (Deque 0 0) (Deque 0 0))
              x80 x00 [x00; x00; x00; x00; x08; x2b; x00]
              [x08; x2b; x00; x00; x00; x00; x00])
    as (bc' & sc' & calls & calls' & E & E' & _ & _ & Hc);
    try reflexivity; try (vm_compute; discriminate).
  exists bc', sc', calls, calls'. repeat split; assumption.
Defined.

(** ** A speed always comes with a distance *)

(** X12: the speed listener is never given a speed without a distance: in
    both speed-capable decoders a state with no distance has no speed, and
    every [onSpeedData] call of [processData] that carries no distance
    carries no speed. *)
Theorem speed_comes_with_distance
  (wc : float) (bs : BikeSpeed.t) (sc : SpeedCadence.t)
  (b : byte) (rest : list byte) :
  let paired (c : callback_call) :=
    match c with
    | onSpeedData speed distance => distance = None -> speed = None
    | onCadenceData _ => True
    end in
  (BikeSpeed.calculate_distance bs wc = None ->
   BikeSpeed.calculate_speed bs wc = None)
  /\ (SpeedCadence.calculate_distance sc wc = None ->
      SpeedCadence.calculate_speed sc wc = None)
  /\ (exists s' calls,
        BikeSpeed.processData bs (b :: rest) = Some (s', calls)
        /\ Forall paired calls)
  /\ (exists s' calls,
        SpeedCadence.processData sc (b :: rest) = Some (s', calls)
        /\ Forall paired calls).
Proof.
  cbv zeta.
  assert (HB : forall (s : BikeSpeed.t) (w : float),
             BikeSpeed.calculate_distance s w = None ->
             BikeSpeed.calculate_speed s w = None).
  { intros s w. rewrite BikeSpeed_distance_cases, BikeSpeed_speed_cases.
    cbv zeta. destruct (slot0 _ =? 0); [reflexivity|discriminate]. }
  assert (HS : forall (s : SpeedCadence.t) (w : float),
             SpeedCadence.calculate_distance s w = None ->
             SpeedCadence.calculate_speed s w = None).
  { intros s w. rewrite SpeedCadence_distance_cases, SpeedCadence_speed_cases.
    cbv zeta. destruct (slot0 _ =? 0); [reflexivity|discriminate]. }
  split; [apply HB|]. split; [apply HS|]. split.
  - destruct (BikeSpeed_processData_step bs b rest)
      as (s' & E & _ & _ & _ & _ & Hs & Hd & _).
    eexists s', _. split; [exact E|].
    destruct (BikeSpeed.callbacks bs _); repeat constructor.
    rewrite Hs, Hd. apply HB.
  - destruct (Z_le_gt_dec (Z.land (byte_val b) 15) 5) as [Hn|Hn].
    + destruct (SpeedCadence_processData_accepted sc b rest Hn)
        as (s' & E & _ & _ & _ & _ & _ & _ & Hs & Hd & _).
      eexists s', _. split; [exact E|].
      destruct (SpeedCadence.callbacks sc "onSpeedData"%string),
        (SpeedCadence.callbacks sc "onCadenceData"%string);
        repeat constructor; rewrite Hs, Hd; apply HS.
    + exists sc, []. split; [apply SpeedCadence_processData_ignored; lia|].
      constructor.
Qed.

(** ** When the speed is absent, in raw counters *)

Lemma delta_u16 (d : deque2) :
  u16_history d ->
  delta d = if slot0 d <=? slot1 d then slot1 d - slot0 d
            else slot1 d + 65536 - slot0 d.
Proof.
  intros [H0 H1]. unfold delta, wrapDifference.
  destruct (Z.leb_spec (slot0 d) (slot1 d)).
  - apply Z.mod_small. lia.
  - replace (slot1 d - slot0 d)
      with (slot1 d + 65536 - slot0 d + (-1) * 65536) by lia.
    rewrite Z.mod_add by lia. apply Z.mod_small. lia.
Qed.

(** X13: with 16-bit event times, speed (and cadence) is absent exactly when
    the older revolution count is 0, the older event time is 0, or the two
    event times are equal.  An event time that is behind the previous one is
    not refused: it counts as a wrap of [newer + 65536 - older] ticks. *)
Theorem rate_absent_iff_u16
  (wc : float) (bs : BikeSpeed.t) (bc : BikeCadence.t) :
  (let rev := BikeSpeed._cumulative_speed_revolution bs in
   let time := BikeSpeed._bike_speed_event_time bs in
   u16_history time ->
   (BikeSpeed.calculate_speed bs wc = None
    <-> slot0 rev = 0 \/ slot0 time = 0 \/ slot1 time = slot0 time)
   /\ (slot1 time < slot0 time ->
       delta time = slot1 time + 65536 - slot0 time))
  /\
  (let rev := BikeCadence._cumulative_cadence_revolution bc in
   let time := BikeCadence._bike_cadence_event_time bc in
   u16_history time ->
   (BikeCadence.calculate_cadence bc = None
    <-> slot0 rev = 0 \/ slot0 time = 0 \/ slot1 time = slot0 time)
   /\ (slot1 time < slot0 time ->
       delta time = slot1 time + 65536 - slot0 time)).
Proof.
  cbv zeta. rewrite BikeSpeed_speed_cases, BikeCadence_cadence_cases.
  cbv zeta.
  split; intros Hu; pose proof (delta_u16 _ Hu) as Hd; destruct Hu as [H0 H1];
    (split;
     [ split;
       [ intros Hnone;
         match type of Hnone with
         | (if (?r =? 0) || (?t =? 0) || negb (0 <? ?dt) then _ else _) = _ =>
           destruct (Z.eqb_spec r 0); [tauto|];
           destruct (Z.eqb_spec t 0); [tauto|];
           destruct (Z.ltb_spec 0 dt); [discriminate Hnone|]
         end;
         right; right;
         match type of Hd with
         | _ = (if ?a <=? ?c then _ else _) =>
           destruct (Z.leb_spec a c); lia
         end
       | intros Hcase; apply rate_guard_none;
         destruct Hcase as [Hr|[Ht|He]]; [tauto|tauto|];
         left; rewrite Hd, He, Z.leb_refl; lia ]
     | intros Hlt;
       match type of Hd with
       | _ = (if ?a <=? ?c then _ else _) =>
         destruct (Z.leb_spec a c); lia
       end ]).
Qed.

Lemma rate_absent_iff_u16_witness :
  let bs := BikeSpeed.Build (fun _ => true) None None 2.105%float
              (Deque 2048 1024) (Deque 2 3) false (Some 0) in
  delta (BikeSpeed._bike_speed_event_time bs) = 64512
  /\ BikeSpeed.calculate_speed bs 2.105 <> None.
Proof.
  cbv zeta.
  match goal with
  | |- _ /\ BikeSpeed.calculate_speed ?bs _ <> _ =>
    destruct (proj1 (rate_absent_iff_u16 2.105 bs
                       (BikeCadence.__init__ (fun _ => true))))
      as [Hiff Hwrap]
  end.
  - split; cbn; lia.
  - split.
    + apply Hwrap. cbn. lia.
    + intros Hnone. apply Hiff in Hnone. cbn in Hnone. lia.
Defined.

Lemma speed_comes_with_distance_witness :
  let bs := BikeSpeed.Build (fun _ => true) None None 2.105%float
              (Deque 1024 2048) (Deque 0 1) false (Some 0) in
  BikeSpeed.calculate_distance bs 2.105 = None
  /\ BikeSpeed.calculate_speed bs 2.105 = None.
Proof.
  cbv zeta. split; [reflexivity|].
  match goal with
  | |- BikeSpeed.calculate_speed ?bs _ = _ =>
    apply (proj1 (speed_comes_with_distance 2.105 bs
                    (SpeedCadence.__init__ 2.105 (fun _ => true)) x00 []))
  end.
  reflexivity.
Defined.

(** ** The stored measurement is current *)

Lemma BikeSpeed_step_current (s : BikeSpeed.t) (b : byte) (rest : list byte) :
  exists s' calls,
    BikeSpeed.processData s (b :: rest) = Some (s', calls)
    /\ BikeSpeed_current s'.
Proof.
  destruct (BikeSpeed_processData_step s b rest)
    as (s' & E & _ & Hw & _ & _ & Hs & Hd & _).
  eexists s', _. split; [exact E|]. unfold BikeSpeed_current.
  rewrite Hw. split; assumption.
Qed.

Lemma BikeCadence_step_current (s : BikeCadence.t) (b : byte) (rest : list byte) :
  exists s' calls,
    BikeCadence.processData s (b :: rest) = Some (s', calls)
    /\ BikeCadence_current s'.
Proof.
  destruct (BikeCadence_processData_step s b rest)
    as (s' & E & _ & _ & _ & Hc & _).
  eexists s', _. split; [exact E|]. exact Hc.
Qed.

Lemma SpeedCadence_step_current (s : SpeedCadence.t) (b : byte) (rest : list byte) :
  SpeedCadence_current s \/ accepted (b :: rest) = true ->
  exists s' calls,
    SpeedCadence.processData s (b :: rest) = Some (s', calls)
    /\ SpeedCadence_current s'.
Proof.
  intros H. destruct (accepted (b :: rest)) eqn:Ha.
  - unfold accepted in Ha. apply Z.leb_le in Ha.
    destruct (SpeedCadence_processData_accepted s b rest Ha)
      as (s' & E & _ & Hw & _ & _ & _ & _ & Hs & Hd & Hc).
    eexists s', _. split; [exact E|]. unfold SpeedCadence_current.
    rewrite Hw. repeat split; assumption.
  - exists s, []. split.
    + apply SpeedCadence_processData_ignored. exact (accepted_false b rest Ha).
    + destruct H as [H|H]; [exact H|discriminate H].
Qed.

Lemma SpeedCadence_feed_current (pages : list (list byte)) :
  forall s : SpeedCadence.t,
    Forall (fun p => p <> []) pages ->
    SpeedCadence_current s \/ Exists (fun p => accepted p = true) pages ->
    exists s',
      feed SpeedCadence.processData s pages = Some s'
      /\ SpeedCadence_current s'.
Proof.
  induction pages as [|p ps IH]; intros s Hne H.
  - exists s. split; [reflexivity|].
    destruct H as [H|H]; [exact H|inversion H].
  - inversion Hne as [|? ? Hp Hps]; subst.
    destruct p as [|b rest]; [congruence|].
    destruct (accepted (b :: rest)) eqn:Ha.
    + destruct (SpeedCadence_step_current s b rest (or_intror Ha))
        as (s1 & c & E & Hc).
      destruct (IH s1 Hps (or_introl Hc)) as (s' & F & Hc').
      exists s'. cbn [feed]. rewrite E. split; assumption.
    + assert (Hi : SpeedCadence.processData s (b :: rest) = Some (s, []))
        by (apply SpeedCadence_processData_ignored;
            exact (accepted_false b rest Ha)).
      assert (H' : SpeedCadence_current s
                   \/ Exists (fun p => accepted p = true) ps).
      { destruct H as [H|H]; [left; exact H|].
        inversion H as [? ? Hh|? ? Ht]; subst; [congruence|right; exact Ht]. }
      destruct (IH s Hps H') as (s' & F & Hc').
      exists s'. cbn [feed]. rewrite Hi. split; assumption.
Qed.

(** X14: what a decoder stores is never stale.  After one or more pages a
    dedicated decoder's stored speed, distance and cadence are those its
    histories give; the same holds of a combined decoder once it has
    accepted a page, and the pages it ignores do not undo it. *)
Theorem stored_measurement_is_current
  (bs : BikeSpeed.t) (bc : BikeCadence.t) (sc : SpeedCadence.t)
  (p : list byte) (ps : list (list byte)) :
  Forall (fun q => q <> []) (p :: ps) ->
  (exists s',
     feed BikeSpeed.processData bs (p :: ps) = Some s'
     /\ BikeSpeed_current s')
  /\
  (exists s',
     feed BikeCadence.processData bc (p :: ps) = Some s'
     /\ BikeCadence_current s')
  /\
  (Exists (fun q => accepted q = true) (p :: ps) ->
   exists s',
     feed SpeedCadence.processData sc (p :: ps) = Some s'
     /\ SpeedCadence_current s').
Proof.
  intros Hne. split; [|split].
  - inversion Hne as [|? ? Hp Hps]; subst.
    destruct p as [|b rest]; [congruence|].
    destruct (BikeSpeed_step_current bs b rest) as (s1 & c & E & Hc).
    cbn [feed]. rewrite E.
    apply (feed_keeps BikeSpeed.processData BikeSpeed_current);
      [|assumption|assumption].
    intros s b' rest' _. apply BikeSpeed_step_current.
  - inversion Hne as [|? ? Hp Hps]; subst.
    destruct p as [|b rest]; [congruence|].
    destruct (BikeCadence_step_current bc b rest) as (s1 & c & E & Hc).
    cbn [feed]. rewrite E.
    apply (feed_keeps BikeCadence.processData BikeCadence_current);
      [|assumption|assumption].
    intros s b' rest' _. apply BikeCadence_step_current.
  - intros Hex. apply SpeedCadence_feed_current; [assumption|right; exact Hex].
Qed.

Lemma stored_measurement_is_current_witness :
  exists s',
    feed SpeedCadence.processData (SpeedCadence.__init__ 2.105 (fun _ => true))
         [[x06]; [x05; x04; x01; x00; x00; x04; x01; x00]; [x0f; x01]]
    = Some s'
    /\ SpeedCadence_current s'.
Proof.
  apply (stored_measurement_is_current
           (BikeSpeed.__init__ 2.105 (fun _ => true))
           (BikeCadence.__init__ (fun _ => true))
           (SpeedCadence.__init__ 2.105 (fun _ => true))
           [x06] [[x05; x04; x01; x00; x00; x04; x01; x00]; [x0f; x01]]).
  - repeat constructor; discriminate.
  - apply Exists_cons_tl. apply Exists_cons_hd. reflexivity.
Defined.

(** ** When the second page gives a measurement *)

Lemma rate_none_iff {A : Type} (r0 : Z) (time : deque2) (v : A) :
  u16_history time ->
  (if (r0 =? 0) || (slot0 time =? 0) || negb (0 <? delta time)
   then None else Some v) = None
  <-> r0 = 0 \/ slot0 time = 0 \/ slot1 time = slot0 time.
Proof.
  intros Hu. pose proof (delta_u16 time Hu) as Hd. destruct Hu as [H0 H1].
  split.
  - intros Hnone.
    destruct (Z.eqb_spec r0 0); [tauto|].
    destruct (Z.eqb_spec (slot0 time) 0); [tauto|].
    destruct (Z.ltb_spec 0 (delta time)); [discriminate Hnone|].
    right; right. destruct (Z.leb_spec (slot0 time) (slot1 time)); lia.
  - intros Hcase. apply rate_guard_none.
    destruct Hcase as [Hr|[Ht|He]]; [tauto|tauto|].
    left. rewrite Hd, He, Z.leb_refl. lia.
Qed.

(** X15: what two pages in a row give, read off the pages alone.  Whatever a
    dedicated decoder held, after pages [p1] and [p2] its speed (its
    cadence) is absent exactly when [p1] carries revolution count 0, or
    event time 0, or the same event time as [p2]; its distance is absent
    exactly when [p1] carries revolution count 0. *)
Theorem second_page_measurement_iff
  (bs : BikeSpeed.t) (bc : BikeCadence.t)
  (b1 b2 : byte) (rest1 rest2 : list byte) :
  let p1 := b1 :: rest1 in
  let p2 := b2 :: rest2 in
  let time p := int_from_bytes_little (slice 4 6 p) in
  let rev p := int_from_bytes_little (slice 6 8 p) in
  (exists s2,
     feed BikeSpeed.processData bs [p1; p2] = Some s2
     /\ (BikeSpeed._speed s2 = None
         <-> rev p1 = 0 \/ time p1 = 0 \/ time p2 = time p1)
     /\ (BikeSpeed._distance s2 = None <-> rev p1 = 0))
  /\
  (exists s2,
     feed BikeCadence.processData bc [p1; p2] = Some s2
     /\ (BikeCadence._cadence s2 = None
         <-> rev p1 = 0 \/ time p1 = 0 \/ time p2 = time p1)).
Proof.
  cbv zeta.
  assert (Hu : u16_history
                 (Deque (int_from_bytes_little (slice 4 6 (b1 :: rest1)))
                        (int_from_bytes_little (slice 4 6 (b2 :: rest2)))))
    by (split; apply (field_u16 4)).
  split.
  - destruct (BikeSpeed_two_pages bs b1 b2 rest1 rest2)
      as (s2 & E & Ht & Hr & Hs & Hd).
    exists s2. split; [exact E|].
    rewrite Hs, Hd, BikeSpeed_speed_cases, BikeSpeed_distance_cases.
    cbv zeta. rewrite Ht, Hr. split.
    + apply (rate_none_iff _ _ _ Hu).
    + apply distance_none_iff.
  - destruct (BikeCadence_two_pages bc b1 b2 rest1 rest2)
      as (s2 & E & Ht & Hr & Hc).
    exists s2. split; [exact E|].
    rewrite Hc, BikeCadence_cadence_cases. cbv zeta. rewrite Ht, Hr.
    apply (rate_none_iff _ _ _ Hu).
Qed.

(** ** A common shift of the counters *)

Lemma delta_shift (d : deque2) (k : Z) :
  delta (Deque ((slot0 d + k) mod 65536) ((slot1 d + k) mod 65536)) = delta d.
Proof.
  unfold delta, wrapDifference. cbn [slot0 slot1].
  rewrite <- Zminus_mod. f_equal. lia.
Qed.

(** X16: the measurement depends on the counters through their wraparound
    differences only.  Two speed decoders with the same wheel circumference
    whose histories differ by a common shift modulo 65536 (of [k] ticks, of
    [j] revolutions), none of the older slots being 0, compute the same
    speed and the same distance: a sensor whose counters have wrapped
    measures as one whose counters have not. *)
Theorem speed_is_shift_invariant
  (wc : float) (bs bs' : BikeSpeed.t) (k j : Z) :
  BikeSpeed._bike_speed_event_time bs'
  = Deque ((slot0 (BikeSpeed._bike_speed_event_time bs) + k) mod 65536)
          ((slot1 (BikeSpeed._bike_speed_event_time bs) + k) mod 65536) ->
  BikeSpeed._cumulative_speed_revolution bs'
  = Deque ((slot0 (BikeSpeed._cumulative_speed_revolution bs) + j) mod 65536)
          ((slot1 (BikeSpeed._cumulative_speed_revolution bs) + j) mod 65536) ->
  slot0 (BikeSpeed._bike_speed_event_time bs) <> 0 ->
  slot0 (BikeSpeed._cumulative_speed_revolution bs) <> 0 ->
  slot0 (BikeSpeed._bike_speed_event_time bs') <> 0 ->
  slot0 (BikeSpeed._cumulative_speed_revolution bs') <> 0 ->
  BikeSpeed.calculate_speed bs' wc = BikeSpeed.calculate_speed bs wc
  /\ BikeSpeed.calculate_distance bs' wc = BikeSpeed.calculate_distance bs wc.
Proof.
  intros Ht Hr Ht0 Hr0 Ht0' Hr0'.
  rewrite !BikeSpeed_speed_cases, !BikeSpeed_distance_cases. cbv zeta.
  assert (Edt : delta (BikeSpeed._bike_speed_event_time bs')
                = delta (BikeSpeed._bike_speed_event_time bs))
    by (rewrite Ht; apply delta_shift).
  assert (Edr : delta (BikeSpeed._cumulative_speed_revolution bs')
                = delta (BikeSpeed._cumulative_speed_revolution bs))
    by (rewrite Hr; apply delta_shift).
  rewrite Edt, Edr.
  destruct (Z.eqb_spec (slot0 (BikeSpeed._cumulative_speed_revolution bs')) 0);
    [contradiction|].
  destruct (Z.eqb_spec (slot0 (BikeSpeed._cumulative_speed_revolution bs)) 0);
    [contradiction|].
  destruct (Z.eqb_spec (slot0 (BikeSpeed._bike_speed_event_time bs')) 0);
    [contradiction|].
  destruct (Z.eqb_spec (slot0 (BikeSpeed._bike_speed_event_time bs)) 0);
    [contradiction|].
  split; reflexivity.
Qed.

Lemma speed_is_shift_invariant_witness :
  let bs := BikeSpeed.Build (fun _ => true) None None 2.105%float
              (Deque 1024 2048) (Deque 1 2) false (Some 0) in
  let bs' := BikeSpeed.Build (fun _ => true) None None 2.105%float
               (Deque 65024 512) (Deque 65535 0) false (Some 0) in
  BikeSpeed.calculate_speed bs' 2.105 = BikeSpeed.calculate_speed bs 2.105
  /\ BikeSpeed.calculate_distance bs' 2.105
     = BikeSpeed.calculate_distance bs 2.105.
Proof.
  cbv zeta.
  apply (speed_is_shift_invariant 2.105 _ _ 64000 65534);
    try reflexivity; cbn; lia.
Defined.

(** ** Two accepted pages in a combined decoder *)

Lemma SpeedCadence_two_pages
  (s : SpeedCadence.t) (b1 b2 : byte) (rest1 rest2 : list byte) :
  Z.land (byte_val b1) 15 <= 5 ->
  Z.land (byte_val b2) 15 <= 5 ->
  let field i p := int_from_bytes_little (slice i (i + 2) p) in
  exists s2,
    feed SpeedCadence.processData s [b1 :: rest1; b2 :: rest2] = Some s2
    /\ SpeedCadence._bike_cadence_event_time s2
       = Deque (field 0%nat (b1 :: rest1)) (field 0%nat (b2 :: rest2))
    /\ SpeedCadence._cumulative_cadence_revolution s2
       = Deque (field 2%nat (b1 :: rest1)) (field 2%nat (b2 :: rest2))
    /\ SpeedCadence._bike_speed_event_time s2
       = Deque (field 4%nat (b1 :: rest1)) (field 4%nat (b2 :: rest2))
    /\ SpeedCadence._cumulative_speed_revolution s2
       = Deque (field 6%nat (b1 :: rest1)) (field 6%nat (b2 :: rest2))
    /\ SpeedCadence._speed s2
       = SpeedCadence.calculate_speed s2 (SpeedCadence._wheel_circumference s)
    /\ SpeedCadence._distance s2
       = SpeedCadence.calculate_distance s2
           (SpeedCadence._wheel_circumference s)
    /\ SpeedCadence._cadence s2 = SpeedCadence.calculate_cadence s2.
Proof.
  intros H1 H2. cbv zeta.
  destruct (SpeedCadence_processData_accepted s b1 rest1 H1)
    as (s1 & E1 & _ & Hw1 & Hct1 & Hcr1 & Hst1 & Hsr1 & _).
  destruct (SpeedCadence_processData_accepted s1 b2 rest2 H2)
    as (s2 & E2 & _ & _ & Hct2 & Hcr2 & Hst2 & Hsr2 & Hs & Hd & Hc).
  exists s2. cbn [feed]. rewrite E1, E2. split; [reflexivity|].
  rewrite Hct2, Hcr2, Hst2, Hsr2, Hct1, Hcr1, Hst1, Hsr1, <- Hw1.
  repeat split; assumption.
Qed.

(** X17: what two accepted pages in a row give a combined decoder, read off
    the pages alone.  Whatever it held, after accepted pages [p1] and [p2]
    its speed is absent exactly when [p1] carries speed revolution count 0
    (bytes 6-7), or speed event time 0 (bytes 4-5), or the speed event time
    of [p2]; its distance exactly when [p1] carries speed revolution count
    0; its cadence exactly when [p1] carries cadence revolution count 0
    (bytes 2-3), or cadence event time 0 (bytes 0-1), or the cadence event
    time of [p2]. *)
Theorem combined_second_page_measurement_iff
  (sc : SpeedCadence.t) (b1 b2 : byte) (rest1 rest2 : list byte) :
  Z.land (byte_val b1) 15 <= 5 ->
  Z.land (byte_val b2) 15 <= 5 ->
  let p1 := b1 :: rest1 in
  let p2 := b2 :: rest2 in
  let field i p := int_from_bytes_little (slice i (i + 2) p) in
  exists s2,
    feed SpeedCadence.processData sc [p1; p2] = Some s2
    /\ (SpeedCadence._speed s2 = None
        <-> field 6%nat p1 = 0 \/ field 4%nat p1 = 0
            \/ field 4%nat p2 = field 4%nat p1)
    /\ (SpeedCadence._distance s2 = None <-> field 6%nat p1 = 0)
    /\ (SpeedCadence._cadence s2 = None
        <-> field 2%nat p1 = 0 \/ field 0%nat p1 = 0
            \/ field 0%nat p2 = field 0%nat p1).
Proof.
  intros H1 H2. cbv zeta.
  destruct (SpeedCadence_two_pages sc b1 b2 rest1 rest2 H1 H2)
    as (s2 & E & Hct & Hcr & Hst & Hsr & Hs & Hd & Hc).
  exists s2. split; [exact E|].
  rewrite Hs, Hd, Hc, SpeedCadence_speed_cases, SpeedCadence_distance_cases,
    SpeedCadence_cadence_cases.
  cbv zeta. rewrite Hct, Hcr, Hst, Hsr. split; [|split].
  - apply rate_none_iff. split; apply field_u16.
  - apply distance_none_iff.
  - apply rate_none_iff. split; apply field_u16.
Qed.

Lemma combined_second_page_measurement_iff_witness :
  exists s2,
    feed SpeedCadence.processData (SpeedCadence.__init__ 2.105 (fun _ => true))
         [[x00; x04; x29; x00; x00; x04; x01; x00];
          [x00; x06; x2a; x00; x00; x08; x02; x00]] = Some s2
    /\ SpeedCadence._speed s2 <> None
    /\ SpeedCadence._distance s2 <> None
    /\ SpeedCadence._cadence s2 <> None.
Proof.
  destruct (combined_second_page_measurement_iff
              (SpeedCadence.__init__ 2.105 (fun _ => true))
              x00 x00 [x04; x29; x00; x00; x04; x01; x00]
              [x06; x2a; x00; x00; x08; x02; x00])
    as (s2 & E & Hs & Hd & Hc); try (vm_compute; discriminate).
  exists s2. split; [exact E|]. split; [|split].
  - intros H. apply Hs in H. vm_compute in H.
    destruct H as [H|[H|H]]; discriminate H.
  - intros H. apply Hd in H. vm_compute in H. discriminate H.
  - intros H. apply Hc in H. vm_compute in H.
    destruct H as [H|[H|H]]; discriminate H.
Defined.
